(** * validate-prompts.py: XML validation against XSD schemas

    A shallow embedding of [src/validate-prompts.py].  The program is a thin
    layer of control flow over three libraries (lxml, requests, os); the calls
    into them are the fields of a [World] record, every fallible call
    returning a [result].  Printing and exceptions are threaded through a
    small writer-and-error monad [M].

    The program is embedded twice.  The definitions of [Section Program] run
    it on a standard output that accepts every text; those of [Module Stdout]
    run it on any standard output, whose [write] may raise, as it does with
    [UnicodeEncodeError] on a text that the encoding of the stream cannot
    represent.  The two agree on a standard output that accepts every text. *)

From Stdlib Require Import String Ascii List Bool ZArith Lia DecimalString.
Import ListNotations.
Local Open Scope string_scope.
Local Open Scope list_scope.

(** ** Python strings *)

Module PyStr.

(** [s.startswith(pre)] *)
Fixpoint startswith (s pre : string) {struct pre} : bool :=
  match pre, s with
  | EmptyString, _ => true
  | String _ _, EmptyString => false
  | String a pre', String b s' => Ascii.eqb a b && startswith s' pre'
  end.

(** [s.startswith((p1, p2, ...))]: a tuple of prefixes *)
Definition startswith_any (s : string) (pres : list string) : bool :=
  existsb (startswith s) pres.

(** [s.endswith(suf)] *)
Fixpoint endswith (s suf : string) : bool :=
  if String.eqb s suf then true
  else match s with
       | EmptyString => false
       | String _ s' => endswith s' suf
       end.

(** Truth value of a [str]: only the empty string is falsy. *)
Definition truthy (s : string) : bool :=
  match s with EmptyString => false | String _ _ => true end.

(** [str(n)] for an integer *)
Definition str_int (z : Z) : string := NilZero.string_of_int (Z.to_int z).

End PyStr.

(** ** [os.path] on a POSIX system ([posixpath]) *)

Module OsPath.

Definition sep : ascii := "/"%char.

Fixpoint contains_sep (p : string) : bool :=
  match p with
  | EmptyString => false
  | String c r => Ascii.eqb c sep || contains_sep r
  end.

(** [p[:p.rfind('/') + 1]] *)
Fixpoint upto_last_sep (p : string) : string :=
  match p with
  | EmptyString => EmptyString
  | String c r => if contains_sep p then String c (upto_last_sep r) else EmptyString
  end.

(** [head == sep * len(head)] *)
Fixpoint all_sep (p : string) : bool :=
  match p with
  | EmptyString => true
  | String c r => Ascii.eqb c sep && all_sep r
  end.

(** [head.rstrip(sep)] *)
Fixpoint rstrip_sep (p : string) : string :=
  match p with
  | EmptyString => EmptyString
  | String c r =>
      let r' := rstrip_sep r in
      if Ascii.eqb c sep && negb (PyStr.truthy r') then EmptyString else String c r'
  end.

(** [os.path.dirname(p)] *)
Definition dirname (p : string) : string :=
  let head := upto_last_sep p in
  if PyStr.truthy head && negb (all_sep head) then rstrip_sep head else head.

(** [os.path.join(a, b)] *)
Definition join (a b : string) : string :=
  if PyStr.startswith b "/" then b
  else if negb (PyStr.truthy a) || PyStr.endswith a "/" then a ++ b
  else a ++ "/" ++ b.

(** [os.path.isabs(p)] *)
Definition isabs (p : string) : bool := PyStr.startswith p "/".

End OsPath.

(** ** Exceptions *)

(** The exception classes the library calls of the program raise, with the
    class each derives from.  All of them derive from [Exception]. *)
Inductive exn_class : Type :=
| Exception
| OSError
| FileNotFoundError
| PermissionError
| RequestException
| HTTPError
| RequestsConnectionError
| Timeout
| LxmlError
| XMLSyntaxError
| XMLSchemaError
| XMLSchemaParseError
| XMLSchemaValidateError
| ValueError
| UnicodeError
| UnicodeEncodeError.

Scheme Equality for exn_class.

Definition base (c : exn_class) : option exn_class :=
  match c with
  | Exception => None
  | OSError => Some Exception
  | FileNotFoundError => Some OSError
  | PermissionError => Some OSError
  | RequestException => Some OSError
  | HTTPError => Some RequestException
  | RequestsConnectionError => Some RequestException
  | Timeout => Some RequestException
  | LxmlError => Some Exception
  | XMLSyntaxError => Some LxmlError
  | XMLSchemaError => Some LxmlError
  | XMLSchemaParseError => Some XMLSchemaError
  | XMLSchemaValidateError => Some XMLSchemaError
  | ValueError => Some Exception
  | UnicodeError => Some ValueError
  | UnicodeEncodeError => Some UnicodeError
  end.

Fixpoint issubclass_upto (depth : nat) (c d : exn_class) : bool :=
  if exn_class_beq c d then true
  else match depth with
       | O => false
       | S depth' =>
           match base c with
           | None => false
           | Some p => issubclass_upto depth' p d
           end
       end.

(** [issubclass(c, d)]; no chain of bases is longer than three steps. *)
Definition issubclass (c d : exn_class) : bool := issubclass_upto 3 c d.

(** A raised exception: its class and [str(e)]. *)
Record exn : Type := mk_exn { exn_cls : exn_class; exn_str : string }.

(** ** Console output and the monad of the program *)

(** One entry of a schema's error log. *)
Record log_entry : Type := mk_entry { line : Z; column : Z; message : string }.

Definition error_log : Type := list log_entry.

(** What one call of [print] writes: a formatted string, or an error-log
    object. *)
Inductive printed : Type :=
| PStr (s : string)
| PLog (l : error_log).

Inductive result (A : Type) : Type :=
| Ret (a : A)
| Raise (e : exn).
Arguments Ret {A} a.
Arguments Raise {A} e.

(** A computation: what it printed, and how it ended. *)
Definition M (A : Type) : Type := (list printed * result A)%type.

Definition ret {A} (a : A) : M A := ([], Ret a).

Definition bind {A B} (m : M A) (f : A -> M B) : M B :=
  match m with
  | (o, Ret a) => let (o', r) := f a in (o ++ o', r)
  | (o, Raise e) => (o, Raise e)
  end.

(** A library call: it prints nothing. *)
Definition call {A} (r : result A) : M A := ([], r).

(** [print(s)] on a standard output that accepts every text; [Stdout.print]
    below is [print] on one that may refuse a text. *)
Definition print (s : string) : M unit := ([PStr s], Ret tt).

Definition print_log (l : error_log) : M unit := ([PLog l], Ret tt).

(** The first handler whose class the exception is an instance of. *)
Fixpoint find_handler {A} (hs : list (exn_class * (exn -> M A))) (e : exn)
  : option (exn -> M A) :=
  match hs with
  | [] => None
  | (c, h) :: hs' => if issubclass (exn_cls e) c then Some h else find_handler hs' e
  end.

(** [try: m  except c1 as e: h1  except c2 as e: h2 ...] *)
Definition try_except {A} (m : M A) (hs : list (exn_class * (exn -> M A))) : M A :=
  match m with
  | (o, Ret a) => (o, Ret a)
  | (o, Raise e) =>
      match find_handler hs e with
      | Some h => let (o', r) := h e in (o ++ o', r)
      | None => (o, Raise e)
      end
  end.

(** [for x in xs: body(x)] *)
Fixpoint for_each {A} (xs : list A) (body : A -> M unit) : M unit :=
  match xs with
  | [] => ret tt
  | x :: xs' => bind (body x) (fun _ => for_each xs' body)
  end.

Declare Scope py_scope.
Delimit Scope py_scope with py.
Notation "x <- m ;; k" := (bind m (fun x => k))
  (at level 100, m at next level, right associativity) : py_scope.
Notation "m ;;; k" := (bind m (fun _ => k))
  (at level 100, right associativity) : py_scope.
Local Open Scope py_scope.

(** ** ANSI colour codes (lines 9-12) *)

Definition ESC : string := String "027"%char EmptyString.
Definition COLOR_OK : string := ESC ++ "[92m".
Definition COLOR_ERROR : string := ESC ++ "[91m".
Definition COLOR_WARNING : string := ESC ++ "[93m".
Definition COLOR_RESET : string := ESC ++ "[0m".

(** ** The libraries and the outside world *)

(** A [requests.Response]. *)
Record Response : Type := mk_response {
  status_code : Z;
  reason : string;
  resp_url : string;
  content : string
}.

(** [Response.raise_for_status()]: an [HTTPError] for a 4xx or 5xx status. *)
Definition raise_for_status (r : Response) : result unit :=
  if (400 <=? status_code r)%Z && (status_code r <? 500)%Z then
    Raise (mk_exn HTTPError
             (PyStr.str_int (status_code r) ++ " Client Error: " ++ reason r
              ++ " for url: " ++ resp_url r))
  else if (500 <=? status_code r)%Z && (status_code r <? 600)%Z then
    Raise (mk_exn HTTPError
             (PyStr.str_int (status_code r) ++ " Server Error: " ++ reason r
              ++ " for url: " ++ resp_url r))
  else Ret tt.

(** [d.get(key)] on the attributes of an element. *)
Fixpoint attrib_get (d : list (string * string)) (key : string) : option string :=
  match d with
  | [] => None
  | (k, v) :: d' => if String.eqb k key then Some v else attrib_get d' key
  end.

Section Program.

(** Parsed documents ([etree._ElementTree]) and compiled schemas
    ([etree.XMLSchema]). *)
Context {ElementTree XMLSchema : Type}.

Record World : Type := mk_world {
  (** [etree.parse(path)] *)
  etree_parse : string -> result ElementTree;
  (** [tree.getroot().attrib] *)
  getroot_attrib : ElementTree -> list (string * string);
  (** [etree.XML(bytes)] *)
  etree_XML : string -> result ElementTree;
  (** [etree.XMLSchema(tree)] *)
  etree_XMLSchema : ElementTree -> result XMLSchema;
  (** [schema.validate(tree)], with the [schema.error_log] it leaves *)
  schema_validate : XMLSchema -> ElementTree -> result (bool * error_log);
  (** [requests.get(url, timeout=t)] *)
  requests_get : string -> Z -> result Response;
  (** [os.path.exists], [os.path.isdir], [os.listdir] *)
  os_path_exists : string -> bool;
  os_path_isdir : string -> bool;
  os_listdir : string -> result (list string)
}.

Variable w : World.

(** *** [fetch_xsd] (lines 14-34) *)

(** The two [except] clauses (lines 29-34). *)
Definition fetch_xsd_except (xsd_url : string)
  : list (exn_class * (exn -> M (option XMLSchema))) :=
  [ (RequestException, fun e =>
       print (COLOR_ERROR ++ "[ERROR] Failed to fetch XSD from " ++ xsd_url
              ++ ": " ++ exn_str e ++ COLOR_RESET) ;;;
       ret None);
    (XMLSyntaxError, fun e =>
       print (COLOR_ERROR ++ "[ERROR] Invalid XSD format from " ++ xsd_url
              ++ ": " ++ exn_str e ++ COLOR_RESET) ;;;
       ret None) ].

Definition fetch_xsd (xsd_url : string) : M (option XMLSchema) :=
  try_except
    (response <- call (requests_get w xsd_url 10) ;;
     call (raise_for_status response) ;;;
     xsd_tree <- call (etree_XML w (content response)) ;;
     schema <- call (etree_XMLSchema w xsd_tree) ;;
     ret (Some schema))
    (fetch_xsd_except xsd_url).

(** *** [validate_with_schema] (lines 90-107) *)

Definition validate_with_schema (xml_tree : ElementTree) (xsd_schema : XMLSchema)
    (xml_path : string) : M bool :=
  v <- call (schema_validate w xsd_schema xml_tree) ;;
  if fst v then
    print (COLOR_OK ++ "[OK] " ++ xml_path ++ " is valid." ++ COLOR_RESET) ;;;
    ret true
  else
    print (COLOR_ERROR ++ "[KO] " ++ xml_path ++ " is NOT valid." ++ COLOR_RESET) ;;;
    print_log (snd v) ;;;
    ret false.

(** *** [validate_xml] (lines 37-87) *)

Definition xsi_ns : string := "http://www.w3.org/2001/XMLSchema-instance".

(** Lines 75-83, reached with [xsd_path] bound by either branch. *)
Definition validate_local (xml_tree : ElementTree) (xsd_path xml_path : string)
  : M bool :=
  if negb (os_path_exists w xsd_path) then
    print (COLOR_ERROR ++ "[ERROR] XSD file '" ++ xsd_path ++ "' not found."
           ++ COLOR_RESET) ;;;
    ret false
  else
    xsd_tree <- call (etree_parse w xsd_path) ;;
    xsd_schema <- call (etree_XMLSchema w xsd_tree) ;;
    validate_with_schema xml_tree xsd_schema xml_path.

(** Lines 56-73, the [else] branch of [if xsd_override]: either the
    function returns ([inl]), or control goes on to line 75 with [xsd_path]
    bound ([inr]). *)
Definition schema_from_document (xml_tree : ElementTree) (xml_path : string)
  : M (bool + string) :=
  let xsd_location :=
    attrib_get (getroot_attrib w xml_tree)
               ("{" ++ xsi_ns ++ "}noNamespaceSchemaLocation") in
  let skip : M (bool + string) :=
    print (COLOR_WARNING ++ "[WARNING] No XSD location found in " ++ xml_path
           ++ ". Skipping validation." ++ COLOR_RESET) ;;;
    ret (inl false) in
  match xsd_location with
  | None => skip
  | Some loc =>
      if negb (PyStr.truthy loc) then skip
      else if PyStr.startswith_any loc ["http://"; "https://"] then
        xsd_schema <- fetch_xsd loc ;;
        match xsd_schema with
        | None => ret (inl false)
        | Some schema =>
            b <- validate_with_schema xml_tree schema xml_path ;;
            ret (inl b)
        end
      else
        ret (inr (OsPath.join (OsPath.dirname xml_path) loc))
  end.

(** The body of the [try] (lines 48-83). *)
Definition validate_xml_body (xml_path : string) (xsd_override : option string)
  : M bool :=
  xml_tree <- call (etree_parse w xml_path) ;;
  r <- match xsd_override with
       | Some o =>
           if PyStr.truthy o then ret (inr o)
           else schema_from_document xml_tree xml_path
       | None => schema_from_document xml_tree xml_path
       end ;;
  match r with
  | inl b => ret b
  | inr xsd_path => validate_local xml_tree xsd_path xml_path
  end.

(** The [except Exception as e] clause (lines 85-87). *)
Definition failed_to_validate (xml_path : string) (e : exn) : M bool :=
  print (COLOR_ERROR ++ "[ERROR] Failed to validate " ++ xml_path ++ ": "
         ++ exn_str e ++ COLOR_RESET) ;;;
  ret false.

Definition validate_xml (xml_path : string) (xsd_override : option string)
  : M bool :=
  try_except (validate_xml_body xml_path xsd_override)
    [ (Exception, failed_to_validate xml_path) ].

(** *** [validate_xmls_in_directory] (lines 110-128) *)

Definition validate_xmls_in_directory (directory : string)
    (xsd_override : option string) : M unit :=
  if negb (os_path_isdir w directory) then
    print (COLOR_ERROR ++ "[ERROR] '" ++ directory ++ "' is not a valid directory."
           ++ COLOR_RESET) ;;;
    ret tt
  else
    entries <- call (os_listdir w directory) ;;
    let xml_files := filter (fun f => PyStr.endswith f ".xml") entries in
    match xml_files with
    | [] => ret tt
    | _ :: _ =>
        for_each xml_files (fun xml_file =>
          let xml_path := OsPath.join directory xml_file in
          validate_xml xml_path xsd_override ;;;
          ret tt)
    end.

(** *** [main] (lines 131-142) *)

(** The namespace [parser.parse_args()] returns for a well-formed command
    line. *)
Record Args : Type := mk_args { xml_path : string; xsd : option string }.

Definition main (args : Args) : M unit :=
  if os_path_isdir w (xml_path args) then
    validate_xmls_in_directory (xml_path args) (xsd args)
  else
    validate_xml (xml_path args) (xsd args) ;;;
    ret tt.

End Program.

Arguments World : clear implicits.


(** ** The program on a standard output that may refuse a text

    [print] encodes its text for [sys.stdout] and writes it; the write
    raises when the stream cannot take the text ([UnicodeEncodeError] for a
    character outside the encoding, [OSError] for a closed pipe).  No [print]
    of the program stands in a [try] of its own: one in the [try] of
    [validate_xml] is caught on line 85, one in an [except] clause is not. *)

Module Stdout.

Section Program.

Context {ElementTree XMLSchema : Type}.
Variable w : World ElementTree XMLSchema.

(** [sys.stdout.write] of what one [print] sends. *)
Variable write : printed -> result unit.

Definition print_item (p : printed) : M unit :=
  match write p with
  | Ret _ => ([p], Ret tt)
  | Raise e => ([], Raise e)
  end.

Definition print (s : string) : M unit := print_item (PStr s).

Definition print_log (l : error_log) : M unit := print_item (PLog l).

(** *** [fetch_xsd] (lines 14-34) *)

Definition fetch_xsd_except (xsd_url : string)
  : list (exn_class * (exn -> M (option XMLSchema))) :=
  [ (RequestException, fun e =>
       print (COLOR_ERROR ++ "[ERROR] Failed to fetch XSD from " ++ xsd_url
              ++ ": " ++ exn_str e ++ COLOR_RESET) ;;;
       ret None);
    (XMLSyntaxError, fun e =>
       print (COLOR_ERROR ++ "[ERROR] Invalid XSD format from " ++ xsd_url
              ++ ": " ++ exn_str e ++ COLOR_RESET) ;;;
       ret None) ].

Definition fetch_xsd (xsd_url : string) : M (option XMLSchema) :=
  try_except
    (response <- call (requests_get w xsd_url 10) ;;
     call (raise_for_status response) ;;;
     xsd_tree <- call (etree_XML w (content response)) ;;
     schema <- call (etree_XMLSchema w xsd_tree) ;;
     ret (Some schema))
    (fetch_xsd_except xsd_url).

(** *** [validate_with_schema] (lines 90-107) *)

Definition validate_with_schema (xml_tree : ElementTree) (xsd_schema : XMLSchema)
    (xml_path : string) : M bool :=
  v <- call (schema_validate w xsd_schema xml_tree) ;;
  if fst v then
    print (COLOR_OK ++ "[OK] " ++ xml_path ++ " is valid." ++ COLOR_RESET) ;;;
    ret true
  else
    print (COLOR_ERROR ++ "[KO] " ++ xml_path ++ " is NOT valid." ++ COLOR_RESET) ;;;
    print_log (snd v) ;;;
    ret false.

(** *** [validate_xml] (lines 37-87) *)

(** Lines 75-83. *)
Definition validate_local (xml_tree : ElementTree) (xsd_path xml_path : string)
  : M bool :=
  if negb (os_path_exists w xsd_path) then
    print (COLOR_ERROR ++ "[ERROR] XSD file '" ++ xsd_path ++ "' not found."
           ++ COLOR_RESET) ;;;
    ret false
  else
    xsd_tree <- call (etree_parse w xsd_path) ;;
    xsd_schema <- call (etree_XMLSchema w xsd_tree) ;;
    validate_with_schema xml_tree xsd_schema xml_path.

(** Lines 56-73. *)
Definition schema_from_document (xml_tree : ElementTree) (xml_path : string)
  : M (bool + string) :=
  let xsd_location :=
    attrib_get (getroot_attrib w xml_tree)
               ("{" ++ xsi_ns ++ "}noNamespaceSchemaLocation") in
  let skip : M (bool + string) :=
    print (COLOR_WARNING ++ "[WARNING] No XSD location found in " ++ xml_path
           ++ ". Skipping validation." ++ COLOR_RESET) ;;;
    ret (inl false) in
  match xsd_location with
  | None => skip
  | Some loc =>
      if negb (PyStr.truthy loc) then skip
      else if PyStr.startswith_any loc ["http://"; "https://"] then
        xsd_schema <- fetch_xsd loc ;;
        match xsd_schema with
        | None => ret (inl false)
        | Some schema =>
            b <- validate_with_schema xml_tree schema xml_path ;;
            ret (inl b)
        end
      else
        ret (inr (OsPath.join (OsPath.dirname xml_path) loc))
  end.

(** The body of the [try] (lines 48-83). *)
Definition validate_xml_body (xml_path : string) (xsd_override : option string)
  : M bool :=
  xml_tree <- call (etree_parse w xml_path) ;;
  r <- match xsd_override with
       | Some o =>
           if PyStr.truthy o then ret (inr o)
           else schema_from_document xml_tree xml_path
       | None => schema_from_document xml_tree xml_path
       end ;;
  match r with
  | inl b => ret b
  | inr xsd_path => validate_local xml_tree xsd_path xml_path
  end.

(** The [except Exception as e] clause (lines 85-87): its [print] is
    outside every [try]. *)
Definition failed_to_validate (xml_path : string) (e : exn) : M bool :=
  print (COLOR_ERROR ++ "[ERROR] Failed to validate " ++ xml_path ++ ": "
         ++ exn_str e ++ COLOR_RESET) ;;;
  ret false.

Definition validate_xml (xml_path : string) (xsd_override : option string)
  : M bool :=
  try_except (validate_xml_body xml_path xsd_override)
    [ (Exception, failed_to_validate xml_path) ].

(** *** [validate_xmls_in_directory] (lines 110-128) *)

Definition validate_xmls_in_directory (directory : string)
    (xsd_override : option string) : M unit :=
  if negb (os_path_isdir w directory) then
    print (COLOR_ERROR ++ "[ERROR] '" ++ directory ++ "' is not a valid directory."
           ++ COLOR_RESET) ;;;
    ret tt
  else
    entries <- call (os_listdir w directory) ;;
    let xml_files := filter (fun f => PyStr.endswith f ".xml") entries in
    match xml_files with
    | [] => ret tt
    | _ :: _ =>
        for_each xml_files (fun xml_file =>
          let xml_path := OsPath.join directory xml_file in
          validate_xml xml_path xsd_override ;;;
          ret tt)
    end.

(** *** [main] (lines 131-142) *)

Definition main (args : Args) : M unit :=
  if os_path_isdir w (xml_path args) then
    validate_xmls_in_directory (xml_path args) (xsd args)
  else
    validate_xml (xml_path args) (xsd args) ;;;
    ret tt.

End Program.

(** A standard output that takes every text. *)
Definition accepts_all (write : printed -> result unit) : Prop :=
  forall p, write p = Ret tt.

End Stdout.

(** ** Vocabulary of the properties *)

(** [bool(xsd_override)]: an override that the test on line 53 accepts. *)
Definition override_given (xsd_override : option string) : bool :=
  match xsd_override with
  | Some o => PyStr.truthy o
  | None => false
  end.

(** The key of [xsi:noNamespaceSchemaLocation] in [root.attrib]. *)
Definition schema_location_key : string :=
  "{http://www.w3.org/2001/XMLSchema-instance}noNamespaceSchemaLocation".

(** A status line: a printed string that opens with a colour and one of the
    four tags of the program. *)
Definition is_status_line (p : printed) : bool :=
  match p with
  | PStr s =>
      PyStr.startswith_any s
        [ (COLOR_OK ++ "[OK] ")%string; (COLOR_ERROR ++ "[KO] ")%string;
          (COLOR_ERROR ++ "[ERROR] ")%string;
          (COLOR_WARNING ++ "[WARNING] ")%string ]
  | PLog _ => false
  end.

Definition status_lines (out : list printed) : nat :=
  length (filter is_status_line out).

(** A run that ends well after one status line, or raises in silence. *)
Definition tidy {A} (m : M A) : Prop :=
  (exists e, m = ([], Raise e)) \/
  (exists out a, m = (out, Ret a) /\ status_lines out = 1).

Section Reference.

Context {ElementTree XMLSchema : Type}.

(** What the specification says of a document validated against a local
    schema file: the document is parsed and checked against the schema at
    [xsd_path]; neither the attributes of the document nor the network are
    consulted, and any exception is a reported failure. *)
Definition validate_against_local_xsd (w : World ElementTree XMLSchema)
    (xml_path xsd_path : string) : M bool :=
  try_except
    (xml_tree <- call (etree_parse w xml_path) ;;
     validate_local w xml_tree xsd_path xml_path)
    [ (Exception, failed_to_validate xml_path) ].


(** Two worlds with the same local files and the same schema engine; the
    attributes of documents and the network may differ. *)
Record same_local (w w' : World ElementTree XMLSchema) : Prop := {
  sl_parse : forall p, etree_parse w' p = etree_parse w p;
  sl_exists : forall p, os_path_exists w' p = os_path_exists w p;
  sl_compile : forall t, etree_XMLSchema w' t = etree_XMLSchema w t;
  sl_validate : forall s t, schema_validate w' s t = schema_validate w s t
}.


End Reference.

(** A line that reports a file as not valid, not validated or skipped. *)
Definition is_failure_line (l : string) : bool :=
  PyStr.startswith_any l
    [ (COLOR_ERROR ++ "[KO] ")%string; (COLOR_ERROR ++ "[ERROR] ")%string;
      (COLOR_WARNING ++ "[WARNING] ")%string ].

Section Runs.

Context {ElementTree XMLSchema : Type}.

(** A run on the document [t] that is accounted for: a true result comes
    with the [OK] line alone and a validation of [t] that succeeded; a false
    result comes with one failure line, followed by the error log only when
    that line is the [KO] line and the log is the one a failed validation of
    [t] left; an exception comes with nothing printed. *)
Definition explained (w : World ElementTree XMLSchema) (t : ElementTree)
    (path : string) (m : M bool) : Prop :=
  match m with
  | (out, Ret true) =>
      out = [PStr (COLOR_OK ++ "[OK] " ++ path ++ " is valid." ++ COLOR_RESET)] /\
      exists s log, schema_validate w s t = Ret (true, log)
  | (out, Ret false) =>
      exists l, is_failure_line l = true /\
        (out = [PStr l] \/
         exists s log,
           schema_validate w s t = Ret (false, log) /\
           l = (COLOR_ERROR ++ "[KO] " ++ path ++ " is NOT valid." ++ COLOR_RESET)%string /\
           out = [PStr l; PLog log])
  | (out, Raise _) => out = []
  end.

End Runs.

(** ** A concrete world

    A directory [proj] holding the documents of the specification's example
    scenario and a few more.  Documents are given by their root attributes
    and the names of the child elements of the root; a schema is the list of
    child elements it requires. *)

Module Demo.

Record doc : Type := mk_doc { attrs : list (string * string); children : list string }.

Definition schema : Type := list string.

Definition key : string := "{" ++ xsi_ns ++ "}noNamespaceSchemaLocation".

(** The XML text of a schema whose root element [root] requires the one
    child element [name]. *)
Definition xsd_text : string :=
  "<xs:schema xmlns:xs='http://www.w3.org/2001/XMLSchema'><xs:element name='root'><xs:complexType><xs:sequence><xs:element name='name' type='xs:string'/></xs:sequence></xs:complexType></xs:element></xs:schema>".

Definition a_xsd : doc := mk_doc [] ["xs:element name"].

Definition files : list (string * doc) :=
  [ ("proj/a.xml", mk_doc [(key, "a.xsd")] ["name"]);
    ("proj/bad.xml", mk_doc [(key, "a.xsd")] []);
    ("proj/skip.xml", mk_doc [("id", "7")] ["name"]);
    ("proj/empty.xml", mk_doc [(key, "")] ["name"]);
    ("proj/abs.xml", mk_doc [(key, "/srv/a.xsd")] ["name"]);
    ("proj/remote.xml", mk_doc [(key, "https://example.org/a.xsd")] ["name"]);
    ("proj/gone.xml", mk_doc [(key, "http://example.org/missing.xsd")] ["name"]);
    ("proj/slow.xml", mk_doc [(key, "http://example.org/slow.xsd")] ["name"]);
    ("proj/odd.xml", mk_doc [(key, "http://example.org/choices.xsd")] ["name"]);
    ("proj/notxsd.xml", mk_doc [(key, "http://example.org/page.xml")] ["name"]);
    ("proj/a.xsd", a_xsd);
    ("/srv/a.xsd", a_xsd);
    ("other.xsd", mk_doc [] ["xs:element other"]) ].

Fixpoint lookup {A} (l : list (string * A)) (k : string) : option A :=
  match l with
  | [] => None
  | (k', v) :: l' => if String.eqb k' k then Some v else lookup l' k
  end.

Definition parse (path : string) : result doc :=
  match lookup files path with
  | Some d => Ret d
  | None =>
      if String.eqb path "proj/broken.xml" then
        Raise (mk_exn XMLSyntaxError "Premature end of data in tag root line 1")
      else
        Raise (mk_exn OSError ("Error reading file '" ++ path ++ "'"))
  end.

Definition from_bytes (b : string) : result doc :=
  if String.eqb b xsd_text then Ret a_xsd
  else if String.eqb b "<page/>" then Ret (mk_doc [] [])
  else Raise (mk_exn XMLSyntaxError "Start tag expected, '<' not found, line 1, column 1").

Definition compile (d : doc) : result schema :=
  match children d with
  | ["xs:element name"] => Ret ["name"]
  | ["xs:element other"] => Ret ["other"]
  | _ => Raise (mk_exn XMLSchemaParseError "The XML document is not a schema document.")
  end.

Definition missing (d : doc) (required : string) : bool :=
  negb (existsb (String.eqb required) (children d)).

Definition check (s : schema) (d : doc) : result (bool * error_log) :=
  let absent := filter (missing d) s in
  Ret (match absent with [] => true | _ :: _ => false end,
       map (fun r => mk_entry 1 0 ("Missing child element(s). Expected is ( " ++ r ++ " ).")) absent).

Definition get (url : string) (timeout : Z) : result Response :=
  if String.eqb url "https://example.org/a.xsd" then
    Ret (mk_response 200 "OK" url xsd_text)
  else if String.eqb url "http://example.org/missing.xsd" then
    Ret (mk_response 404 "Not Found" url "<h1>Not Found</h1>")
  else if String.eqb url "http://example.org/choices.xsd" then
    Ret (mk_response 300 "Multiple Choices" url xsd_text)
  else if String.eqb url "http://example.org/page.xml" then
    Ret (mk_response 200 "OK" url "<page/>")
  else if String.eqb url "http://example.org/readme.txt" then
    Ret (mk_response 200 "OK" url "plain text")
  else if String.eqb url "http://example.org/slow.xsd" then
    Raise (mk_exn Timeout "Read timed out. (read timeout=10)")
  else
    Raise (mk_exn RequestsConnectionError "Failed to establish a new connection").

Definition is_dir (path : string) : bool :=
  let p := OsPath.rstrip_sep path in
  String.eqb p "proj" || String.eqb p "locked".

Definition listing (path : string) : result (list string) :=
  if String.eqb path "proj" then
    Ret ["bad.xml"; "a.xsd"; "a.xml"; "notes.txt"; "skip.xml"; "broken.xml"]
  else if String.eqb path "locked" then
    Raise (mk_exn PermissionError "[Errno 13] Permission denied: 'locked'")
  else
    Raise (mk_exn FileNotFoundError "[Errno 2] No such file or directory").

Definition world : World doc schema :=
  {| etree_parse := parse;
     getroot_attrib := attrs;
     etree_XML := from_bytes;
     etree_XMLSchema := compile;
     schema_validate := check;
     requests_get := get;
     os_path_exists := fun p =>
       match lookup files p with Some _ => true | None => is_dir p end;
     os_path_isdir := is_dir;
     os_listdir := listing |}.

(** The same local files, but every document names a remote schema and the
    network is down. *)
Definition offline : World doc schema :=
  {| etree_parse := parse;
     getroot_attrib := fun _ => [(key, "http://example.org/a.xsd")];
     etree_XML := from_bytes;
     etree_XMLSchema := compile;
     schema_validate := check;
     requests_get := fun _ _ =>
       Raise (mk_exn RequestsConnectionError "Network is unreachable");
     os_path_exists := os_path_exists world;
     os_path_isdir := is_dir;
     os_listdir := listing |}.

(** A directory [intl] with three documents; the name of the second has a
    character beyond ASCII. *)
Definition cafe : string := "caf" ++ String "233" ".xml".

Definition intl_files : list (string * doc) :=
  [ ("intl/bad.xml", mk_doc [(key, "a.xsd")] []);
    (("intl/" ++ cafe)%string, mk_doc [(key, "a.xsd")] ["name"]);
    ("intl/a.xml", mk_doc [(key, "a.xsd")] ["name"]);
    ("intl/a.xsd", a_xsd) ].

Definition intl : World doc schema :=
  {| etree_parse := fun p =>
       match lookup intl_files p with
       | Some d => Ret d
       | None => Raise (mk_exn OSError ("Error reading file '" ++ p ++ "'"))
       end;
     getroot_attrib := attrs;
     etree_XML := from_bytes;
     etree_XMLSchema := compile;
     schema_validate := check;
     requests_get := get;
     os_path_exists := fun p =>
       match lookup intl_files p with
       | Some _ => true
       | None => String.eqb (OsPath.rstrip_sep p) "intl"
       end;
     os_path_isdir := fun p => String.eqb (OsPath.rstrip_sep p) "intl";
     os_listdir := fun p =>
       if String.eqb (OsPath.rstrip_sep p) "intl" then
         Ret ["bad.xml"; cafe; "a.xml"; "a.xsd"]
       else Raise (mk_exn FileNotFoundError "[Errno 2] No such file or directory") |}.

(** A standard output that takes every text. *)
Definition accepting : printed -> result unit := fun _ => Ret tt.

Fixpoint ascii_only (s : string) : bool :=
  match s with
  | EmptyString => true
  | String c r => (nat_of_ascii c <? 128)%nat && ascii_only r
  end.

(** A standard output encoded in ASCII, with the error handler [strict]. *)
Definition ascii_stdout (p : printed) : result unit :=
  let text_ok :=
    match p with
    | PStr s => ascii_only s
    | PLog l => forallb (fun entry => ascii_only (message entry)) l
    end in
  if text_ok then Ret tt
  else Raise (mk_exn UnicodeEncodeError
                "'ascii' codec can't encode character: ordinal not in range(128)").

(** The same files and documents, but the network is down. *)
Definition unplugged : World doc schema :=
  {| etree_parse := parse;
     getroot_attrib := attrs;
     etree_XML := fun _ => Raise (mk_exn XMLSyntaxError "Document is empty");
     etree_XMLSchema := compile;
     schema_validate := check;
     requests_get := fun _ _ =>
       Raise (mk_exn RequestsConnectionError "Network is unreachable");
     os_path_exists := os_path_exists world;
     os_path_isdir := is_dir;
     os_listdir := listing |}.


End Demo.

(** ** Properties *)

(** *** The exception hierarchy *)

Lemma issubclass_Exception (c : exn_class) : issubclass c Exception = true.
Proof. destruct c; reflexivity. Qed.

Lemma XMLSchemaParseError_not_caught :
  issubclass XMLSchemaParseError RequestException = false /\
  issubclass XMLSchemaParseError XMLSyntaxError = false.
Proof. split; reflexivity. Qed.

(** *** The monad *)

Lemma bind_call_Ret {A B} (a : A) (f : A -> M B) : bind (call (Ret a)) f = f a.
Proof. unfold bind, call. destruct (f a); reflexivity. Qed.

Lemma bind_call_Raise {A B} (e : exn) (f : A -> M B) :
  bind (call (Raise e)) f = ([], Raise e).
Proof. reflexivity. Qed.

Lemma bind_ret_l {A B} (a : A) (f : A -> M B) : bind (ret a) f = f a.
Proof. unfold bind, ret. destruct (f a); reflexivity. Qed.

Lemma bind_Ret_nil {A B} (a : A) (f : A -> M B) : bind ([], Ret a) f = f a.
Proof. apply bind_ret_l. Qed.

Lemma bind_ret_r {A} (m : M A) : bind m ret = m.
Proof.
  destruct m as [o [a|e]]; cbn; [rewrite app_nil_r|]; reflexivity.
Qed.

Lemma bind_assoc {A B C} (m : M A) (f : A -> M B) (g : B -> M C) :
  bind (bind m f) g = bind m (fun x => bind (f x) g).
Proof.
  destruct m as [o [a|e]]; cbn; [|reflexivity].
  destruct (f a) as [o' [b|e]]; cbn; [|reflexivity].
  destruct (g b) as [o'' r]. rewrite app_assoc. reflexivity.
Qed.

Lemma bind_ext {A B} (m : M A) (f g : A -> M B) :
  (forall x, f x = g x) -> bind m f = bind m g.
Proof.
  intros H. destruct m as [o [a|e]]; cbn; [rewrite H|]; reflexivity.
Qed.

Lemma try_except_Ret {A} (o : list printed) (a : A) hs :
  try_except (o, Ret a) hs = (o, Ret a).
Proof. reflexivity. Qed.

Lemma try_except_Exception (o : list printed) (e : exn) (h : exn -> M bool) :
  try_except (o, Raise e) [(Exception, h)] = (o ++ fst (h e), snd (h e)).
Proof.
  unfold try_except, find_handler. rewrite issubclass_Exception.
  destruct (h e); reflexivity.
Qed.

Section Properties.

Context {ElementTree XMLSchema : Type}.
Variable w : World ElementTree XMLSchema.

(** *** The validator *)


(** An exception of the schema engine leaves [validate_with_schema] with
    nothing printed. *)
Lemma validate_with_schema_shape
    (xml_tree : ElementTree) (xsd_schema : XMLSchema) (path : string) :
  (exists e, validate_with_schema w xml_tree xsd_schema path = ([], Raise e)) \/
  (exists out b, validate_with_schema w xml_tree xsd_schema path = (out, Ret b)
                 /\ status_lines out = 1).
Proof.
  unfold validate_with_schema.
  destruct (schema_validate w xsd_schema xml_tree) as [[[] log]|e]; cbn.
  - right. eexists _, _. split; reflexivity.
  - right. eexists _, _. split; reflexivity.
  - left. eauto.
Qed.

(** *** The schema fetcher *)



(** What the two [except] clauses of [fetch_xsd] do with an exception raised
    in the [try]. *)
Lemma fetch_xsd_handlers (url : string) (e : exn) :
  try_except ([], Raise e) (fetch_xsd_except (XMLSchema:=XMLSchema) url)
  = if issubclass (exn_cls e) RequestException then
      ([PStr (COLOR_ERROR ++ "[ERROR] Failed to fetch XSD from " ++ url
              ++ ": " ++ exn_str e ++ COLOR_RESET)], Ret None)
    else if issubclass (exn_cls e) XMLSyntaxError then
      ([PStr (COLOR_ERROR ++ "[ERROR] Invalid XSD format from " ++ url
              ++ ": " ++ exn_str e ++ COLOR_RESET)], Ret None)
    else ([], Raise e).
Proof.
  unfold try_except, fetch_xsd_except, find_handler.
  destruct (issubclass (exn_cls e) RequestException); [reflexivity|].
  destruct (issubclass (exn_cls e) XMLSyntaxError); reflexivity.
Qed.





(** An exception of [etree.XMLSchema] that is neither a [RequestException]
    nor an [XMLSyntaxError] leaves [fetch_xsd]. *)
Lemma fetch_xsd_compile_error_escapes (url : string) r t e :
  requests_get w url 10 = Ret r -> raise_for_status r = Ret tt ->
  etree_XML w (content r) = Ret t -> etree_XMLSchema w t = Raise e ->
  issubclass (exn_cls e) RequestException = false ->
  issubclass (exn_cls e) XMLSyntaxError = false ->
  fetch_xsd w url = ([], Raise e).
Proof.
  intros Hg Hs Hx Hc H1 H2. unfold fetch_xsd.
  rewrite Hg, bind_call_Ret, Hs, bind_call_Ret, Hx, bind_call_Ret, Hc.
  rewrite bind_call_Raise, fetch_xsd_handlers, H1, H2. reflexivity.
Qed.


(** Whatever happens, [fetch_xsd] returns a schema having printed nothing,
    returns [None] having printed one status line, or raises having printed
    nothing. *)
Lemma fetch_xsd_shape (url : string) :
  (exists s, fetch_xsd w url = ([], Ret (Some s))) \/
  (exists l, fetch_xsd w url = ([l], Ret None) /\ status_lines [l] = 1) \/
  (exists e, fetch_xsd w url = ([], Raise e)).
Proof.
  assert (H : forall e,
              let m := try_except ([], Raise e) (fetch_xsd_except (XMLSchema:=XMLSchema) url) in
              (exists l, m = ([l], Ret None) /\ status_lines [l] = 1) \/
              (exists e', m = ([], Raise e'))).
  { intros e. cbv zeta. rewrite (fetch_xsd_handlers url e).
    destruct (issubclass (exn_cls e) RequestException).
    - left. eexists. split; reflexivity.
    - destruct (issubclass (exn_cls e) XMLSyntaxError).
      + left. eexists. split; reflexivity.
      + right. eauto. }
  unfold fetch_xsd.
  destruct (requests_get w url 10) as [r|e];
    [rewrite bind_call_Ret | rewrite bind_call_Raise; right; apply H].
  destruct (raise_for_status r) as [[]|e];
    [rewrite bind_call_Ret | rewrite bind_call_Raise; right; apply H].
  destruct (etree_XML w (content r)) as [t|e];
    [rewrite bind_call_Ret | rewrite bind_call_Raise; right; apply H].
  destruct (etree_XMLSchema w t) as [s|e];
    [rewrite bind_call_Ret | rewrite bind_call_Raise; right; apply H].
  left. exists s. reflexivity.
Qed.

(** *** Shapes of the runs of [validate_xml]

    These are runs on a standard output that accepts every text; what a
    refused text changes is in the last part of the file. *)

Lemma validate_with_schema_tidy xml_tree xsd_schema path :
  tidy (validate_with_schema w xml_tree xsd_schema path).
Proof. apply validate_with_schema_shape. Qed.

Lemma validate_local_tidy xml_tree xsd_path path :
  tidy (validate_local w xml_tree xsd_path path).
Proof.
  unfold validate_local.
  destruct (os_path_exists w xsd_path); cbn [negb].
  - destruct (etree_parse w xsd_path) as [t|e];
      [rewrite bind_call_Ret | left; eexists; reflexivity].
    destruct (etree_XMLSchema w t) as [s|e];
      [rewrite bind_call_Ret | left; eexists; reflexivity].
    apply validate_with_schema_tidy.
  - right. eexists _, _. split; reflexivity.
Qed.

Lemma schema_from_document_shape xml_tree path :
  (exists e, schema_from_document w xml_tree path = ([], Raise e)) \/
  (exists out b, schema_from_document w xml_tree path = (out, Ret (inl b))
                 /\ status_lines out = 1) \/
  (exists xsd_path, schema_from_document w xml_tree path = ([], Ret (inr xsd_path))).
Proof.
  unfold schema_from_document. cbv zeta.
  destruct (attrib_get _ _) as [loc|].
  2:{ right; left. eexists _, _. split; reflexivity. }
  destruct (PyStr.truthy loc); cbn [negb].
  2:{ right; left. eexists _, _. split; reflexivity. }
  destruct (PyStr.startswith_any loc _).
  2:{ right; right. eexists. reflexivity. }
  destruct (fetch_xsd_shape loc) as [[s H]|[[l [H Hl]]|[e H]]]; rewrite H.
  - rewrite bind_Ret_nil.
    destruct (validate_with_schema_tidy xml_tree s path) as [[e H']|[out [b [H' Ho]]]];
      rewrite H'.
    + left. eexists. reflexivity.
    + right; left. exists out, b. cbn. rewrite app_nil_r. split; trivial.
  - right; left. exists [l], false. split; [reflexivity|exact Hl].
  - left. eexists. reflexivity.
Qed.

Lemma validate_xml_body_tidy path xsd_override :
  tidy (validate_xml_body w path xsd_override).
Proof.
  unfold validate_xml_body.
  destruct (etree_parse w path) as [t|e];
    [rewrite bind_call_Ret | left; eexists; reflexivity].
  assert (Hdoc : tidy (r <- schema_from_document w t path ;;
                       match r with
                       | inl b => ret b
                       | inr xsd_path => validate_local w t xsd_path path
                       end)).
  { destruct (schema_from_document_shape t path)
      as [[e H]|[[out [b [H Ho]]]|[xsd_path H]]]; rewrite H.
    - left. eexists. reflexivity.
    - right. exists out, b. cbn. rewrite app_nil_r. split; trivial.
    - rewrite bind_Ret_nil. apply validate_local_tidy. }
  destruct xsd_override as [o|]; [|exact Hdoc].
  destruct (PyStr.truthy o); [|exact Hdoc].
  rewrite bind_ret_l. apply validate_local_tidy.
Qed.

Lemma validate_xml_one_status_line path xsd_override :
  exists out b, validate_xml w path xsd_override = (out, Ret b)
                /\ status_lines out = 1.
Proof.
  unfold validate_xml.
  destruct (validate_xml_body_tidy path xsd_override) as [[e H]|[out [b [H Ho]]]];
    rewrite H.
  - rewrite try_except_Exception. eexists _, _. split; reflexivity.
  - exists out, b. split; trivial.
Qed.

(** *** Where the schema comes from *)

Lemma truthy_nonempty (s : string) : PyStr.truthy s = true <-> s <> EmptyString.
Proof. destruct s; cbn; split; congruence. Qed.

Lemma validate_xml_with_override path o :
  PyStr.truthy o = true ->
  validate_xml w path (Some o) = validate_against_local_xsd w path o.
Proof.
  intros Ho. unfold validate_xml, validate_xml_body, validate_against_local_xsd.
  rewrite Ho. destruct (etree_parse w path) as [t|e]; [|reflexivity].
  rewrite !bind_call_Ret, bind_ret_l. reflexivity.
Qed.

Lemma validate_xml_without_override path o t :
  override_given o = false -> etree_parse w path = Ret t ->
  validate_xml w path o
  = try_except
      (r <- schema_from_document w t path ;;
       match r with
       | inl b => ret b
       | inr xsd_path => validate_local w t xsd_path path
       end)
      [ (Exception, failed_to_validate path) ].
Proof.
  intros Ho Ht. unfold validate_xml, validate_xml_body.
  rewrite Ht, bind_call_Ret.
  destruct o as [o|]; [cbn in Ho; rewrite Ho|]; reflexivity.
Qed.

Lemma validate_against_local_xsd_parsed path xsd_path t :
  etree_parse w path = Ret t ->
  validate_against_local_xsd w path xsd_path
  = try_except (validate_local w t xsd_path path)
      [ (Exception, failed_to_validate path) ].
Proof.
  intros Ht. unfold validate_against_local_xsd. rewrite Ht, bind_call_Ret.
  reflexivity.
Qed.


Lemma validate_against_local_xsd_ext w' path xsd_path :
  same_local w w' ->
  validate_against_local_xsd w' path xsd_path
  = validate_against_local_xsd w path xsd_path.
Proof.
  intros [Hp He Hc Hv]. unfold validate_against_local_xsd.
  rewrite Hp. destruct (etree_parse w path) as [t|e]; [|reflexivity].
  rewrite !bind_call_Ret. unfold validate_local.
  rewrite He. destruct (os_path_exists w xsd_path); [|reflexivity].
  cbn [negb]. rewrite Hp.
  destruct (etree_parse w xsd_path) as [xt|e]; [|reflexivity].
  rewrite !bind_call_Ret, Hc.
  destruct (etree_XMLSchema w xt) as [xs|e]; [|reflexivity].
  rewrite !bind_call_Ret. unfold validate_with_schema. rewrite Hv. reflexivity.
Qed.

(** C3, as amended: a non-empty [xsd_override] is the path of the schema.
    The run is the validation of the document against that local file, and it
    is the same in every world with the same local files, whatever the
    document's own [xsi:noNamespaceSchemaLocation] and whatever the network. *)
Theorem override_wins (path o : string) :
  o <> EmptyString ->
  validate_xml w path (Some o) = validate_against_local_xsd w path o /\
  (forall w', same_local w w' ->
     validate_xml w' path (Some o) = validate_xml w path (Some o)).
Proof.
  intros Ho. apply truthy_nonempty in Ho. split.
  - apply validate_xml_with_override, Ho.
  - intros w' Hw. unfold validate_xml, validate_xml_body. rewrite Ho.
    destruct Hw as [Hp He Hc Hv]. rewrite Hp.
    destruct (etree_parse w path) as [t|e]; [|reflexivity].
    rewrite !bind_call_Ret, !bind_ret_l. unfold validate_local.
    rewrite He. destruct (os_path_exists w o); [|reflexivity].
    cbn [negb]. rewrite Hp.
    destruct (etree_parse w o) as [xt|e]; [|reflexivity].
    rewrite !bind_call_Ret, Hc.
    destruct (etree_XMLSchema w xt) as [xs|e]; [|reflexivity].
    rewrite !bind_call_Ret. unfold validate_with_schema. rewrite Hv. reflexivity.
Qed.

Lemma validate_xml_local_location path o t loc :
  override_given o = false -> etree_parse w path = Ret t ->
  attrib_get (getroot_attrib w t) schema_location_key = Some loc ->
  PyStr.truthy loc = true ->
  PyStr.startswith_any loc ["http://"; "https://"]%string = false ->
  validate_xml w path o
  = validate_against_local_xsd w path (OsPath.join (OsPath.dirname path) loc).
Proof.
  intros Ho Ht Ha Hl Hu.
  rewrite (validate_xml_without_override _ _ _ Ho Ht).
  rewrite (validate_against_local_xsd_parsed _ _ _ Ht).
  unfold schema_from_document. cbv zeta.
  change ("{" ++ xsi_ns ++ "}noNamespaceSchemaLocation")%string
    with schema_location_key.
  rewrite Ha, Hl, Hu. cbn [negb]. rewrite bind_ret_l. reflexivity.
Qed.


Lemma isabs_join (dir loc : string) :
  OsPath.isabs loc = true -> OsPath.join dir loc = loc.
Proof. unfold OsPath.isabs, OsPath.join. intros H. rewrite H. reflexivity. Qed.

Lemma isabs_not_url (loc : string) :
  OsPath.isabs loc = true ->
  PyStr.truthy loc = true /\
  PyStr.startswith_any loc ["http://"; "https://"]%string = false.
Proof.
  unfold OsPath.isabs. destruct loc as [|c r]; [discriminate|].
  intros H. change (Ascii.eqb "/" c && true = true) in H.
  rewrite andb_true_r in H. apply Ascii.eqb_eq in H. subst c.
  split; reflexivity.
Qed.

(** C10: an embedded schema location that is an absolute path is used as it
    stands.  Joining it to any directory gives the location back, so the
    schema file is the same wherever the XML file lives. *)
Theorem absolute_schema_location
    (path : string) (xsd_override : option string) (t : ElementTree) (loc : string) :
  override_given xsd_override = false ->
  etree_parse w path = Ret t ->
  attrib_get (getroot_attrib w t) schema_location_key = Some loc ->
  OsPath.isabs loc = true ->
  OsPath.join (OsPath.dirname path) loc = loc /\
  (forall dir, OsPath.join dir loc = loc) /\
  validate_xml w path xsd_override = validate_against_local_xsd w path loc.
Proof.
  intros Ho Ht Ha Hl. destruct (isabs_not_url loc Hl) as [Hn Hu].
  split; [apply isabs_join, Hl|]. split; [intros; apply isabs_join, Hl|].
  rewrite (validate_xml_local_location _ _ _ _ Ho Ht Ha Hn Hu).
  rewrite isabs_join by exact Hl. reflexivity.
Qed.






End Properties.

Section Resolution.

Context {ElementTree XMLSchema : Type}.
Variable w : World ElementTree XMLSchema.


End Resolution.

Section Walk.

Context {ElementTree XMLSchema : Type}.
Variable w : World ElementTree XMLSchema.

(** *** The directory walker *)

Lemma status_lines_app (a b : list printed) :
  status_lines (a ++ b) = status_lines a + status_lines b.
Proof. unfold status_lines. rewrite filter_app, length_app. reflexivity. Qed.

(** On a standard output that accepts every text the loop runs to its end:
    the output of each file follows that of the files before it, whatever
    their results. *)
Lemma for_each_validate_xml (directory : string) (o : option string) files :
  for_each files (fun xml_file =>
    validate_xml w (OsPath.join directory xml_file) o ;;; ret tt)
  = (flat_map (fun f => fst (validate_xml w (OsPath.join directory f) o)) files,
     Ret tt).
Proof.
  induction files as [|f files IH]; [reflexivity|].
  cbn [for_each flat_map]. rewrite IH.
  destruct (validate_xml_one_status_line w (OsPath.join directory f) o)
    as [out [b [H _]]].
  rewrite H. cbn. rewrite app_nil_r. reflexivity.
Qed.

Lemma status_lines_per_file (directory : string) (o : option string) files :
  status_lines
    (flat_map (fun f => fst (validate_xml w (OsPath.join directory f) o)) files)
  = length files.
Proof.
  induction files as [|f files IH]; [reflexivity|].
  cbn [flat_map length]. rewrite status_lines_app, IH.
  destruct (validate_xml_one_status_line w (OsPath.join directory f) o)
    as [out [b [H Hs]]].
  rewrite H. cbn [fst]. rewrite Hs. reflexivity.
Qed.

Lemma validate_xmls_in_directory_listed (directory : string) (o : option string) entries :
  os_path_isdir w directory = true -> os_listdir w directory = Ret entries ->
  validate_xmls_in_directory w directory o
  = (flat_map (fun f => fst (validate_xml w (OsPath.join directory f) o))
       (filter (fun f => PyStr.endswith f ".xml") entries),
     Ret tt).
Proof.
  intros Hd Hl. unfold validate_xmls_in_directory.
  rewrite Hd, Hl, bind_call_Ret. cbn [negb].
  destruct (filter _ entries) as [|f files] eqn:E; [reflexivity|].
  apply for_each_validate_xml.
Qed.

End Walk.

(** ** The properties on the concrete world *)

Example dirname_examples :
  OsPath.dirname "proj/a.xml" = "proj" /\ OsPath.dirname "a.xml" = "" /\
  OsPath.dirname "/a.xml" = "/" /\ OsPath.dirname "a//b" = "a".
Proof. repeat split; reflexivity. Qed.

Example join_examples :
  OsPath.join "proj" "a.xsd" = "proj/a.xsd" /\ OsPath.join "" "a.xsd" = "a.xsd" /\
  OsPath.join "proj/" "a.xsd" = "proj/a.xsd" /\
  OsPath.join "proj" "/srv/a.xsd" = "/srv/a.xsd".
Proof. repeat split; reflexivity. Qed.

(** The scenario of the specification: [a.xml] names [a.xsd], which
    requires the element [name]. *)
Example scenario_valid :
  validate_xml Demo.world "proj/a.xml" None
  = ([PStr (COLOR_OK ++ "[OK] proj/a.xml is valid." ++ COLOR_RESET)], Ret true).
Proof. reflexivity. Qed.

Example scenario_invalid :
  validate_xml Demo.world "proj/bad.xml" None
  = ([PStr (COLOR_ERROR ++ "[KO] proj/bad.xml is NOT valid." ++ COLOR_RESET);
      PLog [mk_entry 1 0 "Missing child element(s). Expected is ( name )."]],
     Ret false).
Proof. reflexivity. Qed.




(** C3, as stated, fails: an empty override is given, and the schema is the
    one the document names, not the file at the override's path. *)
Lemma empty_override_is_ignored :
  validate_xml Demo.world "proj/a.xml" (Some "")
  <> validate_against_local_xsd Demo.world "proj/a.xml" "" /\
  validate_xml Demo.world "proj/a.xml" (Some "")
  = validate_against_local_xsd Demo.world "proj/a.xml" "proj/a.xsd".
Proof. split; [discriminate|reflexivity]. Qed.

Lemma override_wins_witness :
  validate_xml Demo.world "proj/a.xml" (Some "other.xsd")
  = ([PStr (COLOR_ERROR ++ "[KO] proj/a.xml is NOT valid." ++ COLOR_RESET);
      PLog [mk_entry 1 0 "Missing child element(s). Expected is ( other )."]],
     Ret false) /\
  validate_xml Demo.offline "proj/a.xml" (Some "other.xsd")
  = validate_xml Demo.world "proj/a.xml" (Some "other.xsd").
Proof.
  destruct (override_wins Demo.world "proj/a.xml" "other.xsd" ltac:(discriminate))
    as [H1 H2].
  split.
  - rewrite H1. reflexivity.
  - apply H2. split; reflexivity.
Defined.






Lemma absolute_schema_location_witness :
  OsPath.join (OsPath.dirname "proj/abs.xml") "/srv/a.xsd" = "/srv/a.xsd" /\
  validate_xml Demo.world "proj/abs.xml" None
  = validate_against_local_xsd Demo.world "proj/abs.xml" "/srv/a.xsd".
Proof.
  destruct (absolute_schema_location Demo.world "proj/abs.xml" None
              (Demo.mk_doc [(Demo.key, "/srv/a.xsd")] ["name"]) "/srv/a.xsd"
              eq_refl eq_refl eq_refl eq_refl) as [H1 [_ H3]].
  split; assumption.
Defined.

(** ** Further properties of the runs *)

Section Outcomes.

Context {ElementTree XMLSchema : Type}.
Variable w : World ElementTree XMLSchema.

(** *** What [fetch_xsd] lets through *)

Lemma fetch_xsd_raise (url : string) (e : exn) :
  issubclass (exn_cls e) RequestException = false ->
  issubclass (exn_cls e) XMLSyntaxError = false ->
  try_except ([], Raise e) (fetch_xsd_except (XMLSchema:=XMLSchema) url)
  = ([], Raise e).
Proof. intros H1 H2. rewrite fetch_xsd_handlers, H1, H2. reflexivity. Qed.

(** X1: an exception of [requests.get], [etree.XML] or [etree.XMLSchema]
    that is neither a [RequestException] nor an [XMLSyntaxError] leaves
    [fetch_xsd] as it was raised, with nothing printed. *)
Theorem fetch_xsd_uncaught (url : string) (e : exn) :
  issubclass (exn_cls e) RequestException = false ->
  issubclass (exn_cls e) XMLSyntaxError = false ->
  (requests_get w url 10 = Raise e -> fetch_xsd w url = ([], Raise e)) /\
  (forall r, requests_get w url 10 = Ret r -> raise_for_status r = Ret tt ->
     etree_XML w (content r) = Raise e -> fetch_xsd w url = ([], Raise e)) /\
  (forall r t, requests_get w url 10 = Ret r -> raise_for_status r = Ret tt ->
     etree_XML w (content r) = Ret t -> etree_XMLSchema w t = Raise e ->
     fetch_xsd w url = ([], Raise e)).
Proof.
  intros H1 H2. unfold fetch_xsd. split; [|split].
  - intros Hg. rewrite Hg, bind_call_Raise. apply fetch_xsd_raise; assumption.
  - intros r Hg Hs Hx.
    rewrite Hg, bind_call_Ret, Hs, bind_call_Ret, Hx, bind_call_Raise.
    apply fetch_xsd_raise; assumption.
  - intros r t Hg Hs Hx Hc.
    rewrite Hg, bind_call_Ret, Hs, bind_call_Ret, Hx, bind_call_Ret, Hc.
    rewrite bind_call_Raise. apply fetch_xsd_raise; assumption.
Qed.

Lemma fetch_xsd_run (url : string) :
  (exists s, fetch_xsd w url = ([], Ret (Some s))) \/
  (exists cause,
     fetch_xsd w url
     = ([PStr (COLOR_ERROR ++ "[ERROR] Failed to fetch XSD from " ++ url
               ++ ": " ++ cause ++ COLOR_RESET)], Ret None) \/
     fetch_xsd w url
     = ([PStr (COLOR_ERROR ++ "[ERROR] Invalid XSD format from " ++ url
               ++ ": " ++ cause ++ COLOR_RESET)], Ret None)) \/
  (exists e, fetch_xsd w url = ([], Raise e) /\
             issubclass (exn_cls e) RequestException = false /\
             issubclass (exn_cls e) XMLSyntaxError = false).
Proof.
  assert (H : forall e,
              let m := try_except ([], Raise e) (fetch_xsd_except (XMLSchema:=XMLSchema) url) in
              (exists cause,
                 m = ([PStr (COLOR_ERROR ++ "[ERROR] Failed to fetch XSD from " ++ url
                             ++ ": " ++ cause ++ COLOR_RESET)], Ret None) \/
                 m = ([PStr (COLOR_ERROR ++ "[ERROR] Invalid XSD format from " ++ url
                             ++ ": " ++ cause ++ COLOR_RESET)], Ret None)) \/
              (exists e', m = ([], Raise e') /\
                          issubclass (exn_cls e') RequestException = false /\
                          issubclass (exn_cls e') XMLSyntaxError = false)).
  { intros e. cbv zeta. rewrite (fetch_xsd_handlers url e).
    destruct (issubclass (exn_cls e) RequestException) eqn:H1.
    - left. exists (exn_str e). left. reflexivity.
    - destruct (issubclass (exn_cls e) XMLSyntaxError) eqn:H2.
      + left. exists (exn_str e). right. reflexivity.
      + right. exists e. repeat split; assumption. }
  unfold fetch_xsd.
  destruct (requests_get w url 10) as [r|e];
    [rewrite bind_call_Ret | rewrite bind_call_Raise; right; apply H].
  destruct (raise_for_status r) as [[]|e];
    [rewrite bind_call_Ret | rewrite bind_call_Raise; right; apply H].
  destruct (etree_XML w (content r)) as [t|e];
    [rewrite bind_call_Ret | rewrite bind_call_Raise; right; apply H].
  destruct (etree_XMLSchema w t) as [s|e];
    [rewrite bind_call_Ret | rewrite bind_call_Raise; right; apply H].
  left. exists s. reflexivity.
Qed.

(** X2: [fetch_xsd] prints only when it gives up.  It returns a schema
    having printed nothing, or returns [None] having printed one error line
    that names the URL and a cause, or raises, having printed nothing, an
    exception that neither [except] clause accepts. *)
Theorem fetch_xsd_outcomes (url : string) :
  (exists s, fetch_xsd w url = ([], Ret (Some s))) \/
  (exists cause,
     fetch_xsd w url
     = ([PStr (COLOR_ERROR ++ "[ERROR] Failed to fetch XSD from " ++ url
               ++ ": " ++ cause ++ COLOR_RESET)], Ret None) \/
     fetch_xsd w url
     = ([PStr (COLOR_ERROR ++ "[ERROR] Invalid XSD format from " ++ url
               ++ ": " ++ cause ++ COLOR_RESET)], Ret None)) \/
  (exists e, fetch_xsd w url = ([], Raise e) /\
             issubclass (exn_cls e) RequestException = false /\
             issubclass (exn_cls e) XMLSyntaxError = false).
Proof. apply fetch_xsd_run. Qed.

(** *** Every run of [validate_xml] is accounted for *)

Lemma explained_validate_with_schema t s path :
  explained w t path (validate_with_schema w t s path).
Proof.
  unfold validate_with_schema.
  destruct (schema_validate w s t) as [[[] log]|e] eqn:E; cbn.
  - split; [reflexivity|]. eauto.
  - exists (COLOR_ERROR ++ "[KO] " ++ path ++ " is NOT valid." ++ COLOR_RESET)%string.
    split; [reflexivity|]. right. exists s, log.
    split; [exact E|]. split; reflexivity.
  - reflexivity.
Qed.

Lemma explained_validate_local t xsd_path path :
  explained w t path (validate_local w t xsd_path path).
Proof.
  unfold validate_local.
  destruct (os_path_exists w xsd_path); cbn [negb].
  - destruct (etree_parse w xsd_path) as [xt|e];
      [rewrite bind_call_Ret | reflexivity].
    destruct (etree_XMLSchema w xt) as [s|e];
      [rewrite bind_call_Ret | reflexivity].
    apply explained_validate_with_schema.
  - cbn. eexists. split; [|left; reflexivity]. reflexivity.
Qed.

Lemma explained_from_document t path :
  explained w t path
    (r <- schema_from_document w t path ;;
     match r with
     | inl b => ret b
     | inr xsd_path => validate_local w t xsd_path path
     end).
Proof.
  assert (Hskip : explained w t path
            (r <- (print (COLOR_WARNING ++ "[WARNING] No XSD location found in "
                          ++ path ++ ". Skipping validation." ++ COLOR_RESET) ;;;
                   ret (inl false)) ;;
             match r with
             | inl b => ret b
             | inr xsd_path => validate_local w t xsd_path path
             end)).
  { cbn. eexists. split; [|left; reflexivity]. reflexivity. }
  unfold schema_from_document. cbv zeta.
  destruct (attrib_get _ _) as [loc|]; [|exact Hskip].
  destruct (PyStr.truthy loc); cbn [negb]; [|exact Hskip].
  destruct (PyStr.startswith_any loc _).
  2:{ rewrite bind_ret_l. apply explained_validate_local. }
  rewrite bind_assoc.
  destruct (fetch_xsd_run loc) as [[s H]|[[cause [H|H]]|[e [H _]]]]; rewrite H.
  - rewrite bind_Ret_nil, bind_assoc.
    replace (x <- validate_with_schema w t s path ;;
             r <- ret (inl x) ;;
             match r with
             | inl b => ret b
             | inr xsd_path => validate_local w t xsd_path path
             end)
      with (validate_with_schema w t s path).
    + apply explained_validate_with_schema.
    + rewrite <- (bind_ret_r (validate_with_schema w t s path)) at 1.
      apply bind_ext. intros b. rewrite bind_ret_l. reflexivity.
  - cbn. eexists. split; [|left; reflexivity]. reflexivity.
  - cbn. eexists. split; [|left; reflexivity]. reflexivity.
  - reflexivity.
Qed.

Lemma explained_validate_xml_body path o t :
  etree_parse w path = Ret t -> explained w t path (validate_xml_body w path o).
Proof.
  intros Ht. unfold validate_xml_body. rewrite Ht, bind_call_Ret.
  destruct o as [o|]; [|apply explained_from_document].
  destruct (PyStr.truthy o); [|apply explained_from_document].
  rewrite bind_ret_l. apply explained_validate_local.
Qed.

(** Either the document does not parse and the run is the error line of
    line 86, or it parses and the run is an explained one that returns. *)
Lemma validate_xml_run path o :
  (exists e, etree_parse w path = Raise e /\
     validate_xml w path o
     = ([PStr (COLOR_ERROR ++ "[ERROR] Failed to validate " ++ path ++ ": "
               ++ exn_str e ++ COLOR_RESET)], Ret false)) \/
  (exists t out b, etree_parse w path = Ret t /\
     validate_xml w path o = (out, Ret b) /\ explained w t path (out, Ret b)).
Proof.
  destruct (etree_parse w path) as [t|e] eqn:Ht.
  - right. exists t.
    pose proof (explained_validate_xml_body path o t Ht) as H.
    unfold validate_xml.
    destruct (validate_xml_body w path o) as [out [b|e]].
    + exists out, b. repeat split; trivial.
    + cbn in H. subst out. rewrite try_except_Exception.
      eexists _, false. repeat split.
      cbn. eexists. split; [|left; reflexivity]. reflexivity.
  - left. exists e. split; [reflexivity|].
    unfold validate_xml, validate_xml_body.
    rewrite Ht, bind_call_Raise, try_except_Exception. reflexivity.
Qed.

Lemma failure_line_is_status_line (l : string) :
  is_failure_line l = true -> is_status_line (PStr l) = true.
Proof.
  unfold is_failure_line, is_status_line, PyStr.startswith_any.
  intros H. cbn [existsb] in *. rewrite H. apply orb_true_r.
Qed.

Lemma ok_line_is_no_failure_line (path : string) :
  is_failure_line (COLOR_OK ++ "[OK] " ++ path ++ " is valid." ++ COLOR_RESET) = false.
Proof. reflexivity. Qed.

(** X4: the result and the printed status agree.  [validate_xml] returns
    true exactly when what it printed is the [OK] line of the file and nothing
    else. *)
Theorem validate_xml_true_iff_ok_line (path : string) (o : option string) :
  snd (validate_xml w path o) = Ret true <->
  fst (validate_xml w path o)
  = [PStr (COLOR_OK ++ "[OK] " ++ path ++ " is valid." ++ COLOR_RESET)].
Proof.
  destruct (validate_xml_run path o) as [[e [_ H]]|[t [out [b [_ [H He]]]]]];
    rewrite H; cbn [fst snd].
  - split; intros H'; [discriminate|].
    injection H' as H'. cbn in H'. discriminate.
  - destruct b; cbn in He.
    + destruct He as [Ho _]. subst out. split; reflexivity.
    + split; [discriminate|]. intros Ho. exfalso.
      destruct He as [l [Hl [Hout|[s [log [_ [_ Hout]]]]]]];
        rewrite Hout in Ho; [|discriminate].
      injection Ho as Ho. rewrite Ho in Hl.
      vm_compute in Hl. discriminate.
Qed.

(** X5: the verdicts are those of the schema engine on this document.  A
    true result means the document parsed and some schema validated it; an
    error log in the output is the log that a failed validation of the parsed
    document left, and the result is then false. *)
Theorem validate_xml_verdict_sound (path : string) (o : option string) :
  (snd (validate_xml w path o) = Ret true ->
     exists t s log,
       etree_parse w path = Ret t /\ schema_validate w s t = Ret (true, log)) /\
  (forall log, In (PLog log) (fst (validate_xml w path o)) ->
     snd (validate_xml w path o) = Ret false /\
     exists t s,
       etree_parse w path = Ret t /\ schema_validate w s t = Ret (false, log)).
Proof.
  destruct (validate_xml_run path o) as [[e [_ H]]|[t [out [b [Ht [H He]]]]]];
    rewrite H; cbn [fst snd].
  - split; [discriminate|]. intros log [Hin|[]]. discriminate.
  - destruct b; cbn in He.
    + destruct He as [Ho [s [log Hv]]]. subst out. split.
      * intros _. exists t, s, log. split; assumption.
      * intros log' [Hin|[]]. discriminate.
    + split; [discriminate|]. intros log Hin.
      destruct He as [l [_ [Hout|[s [log' [Hv [_ Hout]]]]]]]; subst out.
      * destruct Hin as [Hin|[]]. discriminate.
      * destruct Hin as [Hin|[Hin|[]]]; [discriminate|].
        injection Hin as Hin. subst log'.
        split; [reflexivity|]. exists t, s. split; assumption.
Qed.

(** *** The three sources of a schema, end to end *)




(** X9: a document with a non-empty local schema location is validated
    without the network: the run is the same in every world with the same
    local files, schema engine and document attributes. *)
Theorem local_location_needs_no_network
    (path : string) (o : option string) (t : ElementTree) (loc : string)
    (w' : World ElementTree XMLSchema) :
  override_given o = false ->
  etree_parse w path = Ret t ->
  attrib_get (getroot_attrib w t) schema_location_key = Some loc ->
  loc <> EmptyString ->
  PyStr.startswith_any loc ["http://"; "https://"]%string = false ->
  same_local w w' ->
  (forall d, getroot_attrib w' d = getroot_attrib w d) ->
  validate_xml w' path o = validate_xml w path o.
Proof.
  intros Ho Ht Ha Hl Hu Hw Hatt. apply truthy_nonempty in Hl.
  rewrite (validate_xml_local_location w _ _ _ _ Ho Ht Ha Hl Hu).
  rewrite <- (validate_against_local_xsd_ext w w' _ _ Hw).
  apply validate_xml_local_location with (t := t); trivial.
  - rewrite (sl_parse _ _ Hw). exact Ht.
  - rewrite Hatt. exact Ha.
Qed.


End Outcomes.

(** *** Paths of the documents found by the walker *)

Lemma endswith_cons (c : ascii) (r suf : string) :
  PyStr.endswith (String c r) suf
  = if String.eqb (String c r) suf then true else PyStr.endswith r suf.
Proof. reflexivity. Qed.

Lemma contains_sep_app_sep (d f : string) :
  OsPath.contains_sep (d ++ "/" ++ f) = true.
Proof.
  induction d as [|c d IH]; [reflexivity|].
  change (String c d ++ "/" ++ f)%string with (String c (d ++ "/" ++ f)).
  cbn [OsPath.contains_sep]. rewrite IH. apply orb_true_r.
Qed.

Lemma upto_last_sep_none (f : string) :
  OsPath.contains_sep f = false -> OsPath.upto_last_sep f = EmptyString.
Proof.
  destruct f as [|c r]; [reflexivity|]. intros H.
  cbn [OsPath.upto_last_sep]. rewrite H. reflexivity.
Qed.

Lemma upto_last_sep_app (d f : string) :
  OsPath.contains_sep f = false ->
  OsPath.upto_last_sep (d ++ "/" ++ f) = (d ++ "/")%string.
Proof.
  intros H. induction d as [|c d IH].
  - change ("" ++ "/" ++ f)%string with (String "/" f).
    cbn [OsPath.upto_last_sep].
    replace (OsPath.contains_sep (String "/" f)) with true by reflexivity.
    rewrite (upto_last_sep_none f H). reflexivity.
  - change (String c d ++ "/" ++ f)%string with (String c (d ++ "/" ++ f)).
    cbn [OsPath.upto_last_sep].
    replace (OsPath.contains_sep (String c (d ++ "/" ++ f))) with true.
    + rewrite IH. reflexivity.
    + cbn [OsPath.contains_sep]. rewrite contains_sep_app_sep.
      symmetry. apply orb_true_r.
Qed.

Lemma all_sep_endswith (d : string) :
  d <> EmptyString -> OsPath.all_sep d = true -> PyStr.endswith d "/" = true.
Proof.
  induction d as [|c d IH]; [congruence|]. intros _ H.
  cbn [OsPath.all_sep] in H. apply andb_true_iff in H as [Hc Hd].
  apply Ascii.eqb_eq in Hc. subst c. rewrite endswith_cons.
  destruct d as [|c' d']; [reflexivity|].
  destruct (String.eqb _ _); [reflexivity|].
  apply IH; [discriminate|exact Hd].
Qed.

Lemma all_sep_app (d x : string) :
  OsPath.all_sep d = false -> OsPath.all_sep (d ++ x) = false.
Proof.
  induction d as [|c d IH]; [discriminate|].
  change (String c d ++ x)%string with (String c (d ++ x)).
  cbn [OsPath.all_sep].
  destruct (Ascii.eqb c OsPath.sep); cbn [andb]; [exact IH|reflexivity].
Qed.

Lemma rstrip_sep_app (d : string) :
  d <> EmptyString -> PyStr.endswith d "/" = false ->
  OsPath.rstrip_sep (d ++ "/") = d.
Proof.
  induction d as [|c d IH]; [congruence|]. intros _ H.
  rewrite endswith_cons in H.
  destruct (String.eqb (String c d) "/") eqn:E; [discriminate|].
  change (String c d ++ "/")%string with (String c (d ++ "/")).
  cbn [OsPath.rstrip_sep].
  destruct d as [|c' d'].
  - change (OsPath.rstrip_sep ("" ++ "/")) with EmptyString.
    change (Ascii.eqb c "/" && true = false) in E.
    rewrite andb_true_r in E.
    change (Ascii.eqb c OsPath.sep) with (Ascii.eqb c "/").
    rewrite E. reflexivity.
  - rewrite IH; [|discriminate|exact H].
    cbn [PyStr.truthy negb]. rewrite andb_false_r. reflexivity.
Qed.

Lemma no_sep_not_absolute (f : string) :
  OsPath.contains_sep f = false -> PyStr.startswith f "/" = false.
Proof.
  destruct f as [|c r]; [reflexivity|]. intros H.
  cbn [OsPath.contains_sep] in H. apply orb_false_iff in H as [H _].
  change (Ascii.eqb "/" c && true = false). rewrite andb_true_r.
  rewrite Ascii.eqb_sym. exact H.
Qed.

Lemma join_relative (d f : string) :
  d <> EmptyString -> PyStr.endswith d "/" = false ->
  OsPath.contains_sep f = false ->
  OsPath.join d f = (d ++ "/" ++ f)%string.
Proof.
  intros Hd He Hf. unfold OsPath.join.
  rewrite (no_sep_not_absolute f Hf), He.
  apply truthy_nonempty in Hd. rewrite Hd. reflexivity.
Qed.

Lemma dirname_join (d f : string) :
  d <> EmptyString -> PyStr.endswith d "/" = false ->
  OsPath.contains_sep f = false ->
  OsPath.dirname (OsPath.join d f) = d.
Proof.
  intros Hd He Hf. rewrite (join_relative d f Hd He Hf).
  unfold OsPath.dirname. cbv zeta. rewrite (upto_last_sep_app d f Hf).
  assert (Ha : OsPath.all_sep d = false).
  { destruct (OsPath.all_sep d) eqn:E; [|reflexivity].
    rewrite (all_sep_endswith d Hd E) in He. discriminate. }
  rewrite (all_sep_app d "/" Ha).
  replace (PyStr.truthy (d ++ "/")) with true
    by (destruct d; [congruence|reflexivity]).
  cbn [negb andb]. apply rstrip_sep_app; assumption.
Qed.

Section Walks.

Context {ElementTree XMLSchema : Type}.
Variable w : World ElementTree XMLSchema.

(** X11: a document that the walker finds in [directory] under the name
    [f] has [directory] as its own directory, so its relative schema location
    is looked for inside the directory that is walked.  This holds for a
    non-empty [directory] written without a trailing slash and a name without
    a slash. *)
Theorem walked_document_schema_path
    (directory f : string) (o : option string) (t : ElementTree) (loc : string) :
  directory <> EmptyString ->
  PyStr.endswith directory "/" = false ->
  OsPath.contains_sep f = false ->
  override_given o = false ->
  etree_parse w (OsPath.join directory f) = Ret t ->
  attrib_get (getroot_attrib w t) schema_location_key = Some loc ->
  loc <> EmptyString ->
  PyStr.startswith_any loc ["http://"; "https://"]%string = false ->
  OsPath.dirname (OsPath.join directory f) = directory /\
  validate_xml w (OsPath.join directory f) o
  = validate_against_local_xsd w (OsPath.join directory f)
      (OsPath.join directory loc).
Proof.
  intros Hd He Hf Ho Ht Ha Hl Hu. apply truthy_nonempty in Hl.
  pose proof (dirname_join directory f Hd He Hf) as Hdir.
  split; [exact Hdir|].
  rewrite (validate_xml_local_location w _ _ _ _ Ho Ht Ha Hl Hu), Hdir.
  reflexivity.
Qed.

(** X14: an empty override is no override: [validate_xml], the walker and
    [main] run as they do without [--xsd]. *)
Theorem empty_override_is_no_override :
  (forall path, validate_xml w path (Some EmptyString) = validate_xml w path None) /\
  (forall directory,
     validate_xmls_in_directory w directory (Some EmptyString)
     = validate_xmls_in_directory w directory None) /\
  (forall path,
     main w (mk_args path (Some EmptyString)) = main w (mk_args path None)).
Proof.
  assert (H : forall path,
            validate_xml w path (Some EmptyString) = validate_xml w path None)
    by reflexivity.
  assert (Hd : forall directory,
             validate_xmls_in_directory w directory (Some EmptyString)
             = validate_xmls_in_directory w directory None).
  { intros directory. unfold validate_xmls_in_directory.
    destruct (os_path_isdir w directory); [|reflexivity]. cbn [negb].
    destruct (os_listdir w directory) as [entries|e]; [|reflexivity].
    rewrite !bind_call_Ret.
    destruct (filter _ entries) as [|f files]; [reflexivity|].
    generalize (f :: files). intros l.
    induction l as [|x l IH]; [reflexivity|].
    cbn [for_each]. rewrite IH, H. reflexivity. }
  split; [exact H|]. split; [exact Hd|].
  intros path. unfold main. cbn [xml_path xsd]. rewrite Hd, H. reflexivity.
Qed.

End Walks.

(** ** The further properties on the concrete world *)

Lemma fetch_xsd_uncaught_witness :
  fetch_xsd Demo.world "http://example.org/page.xml"
  = ([], Raise (mk_exn XMLSchemaParseError "The XML document is not a schema document.")).
Proof.
  apply (proj2 (proj2 (fetch_xsd_uncaught Demo.world "http://example.org/page.xml"
                         (mk_exn XMLSchemaParseError
                            "The XML document is not a schema document.")
                         eq_refl eq_refl))
           (mk_response 200 "OK" "http://example.org/page.xml" "<page/>")
           (Demo.mk_doc [] []));
    reflexivity.
Defined.

Lemma validate_xml_true_iff_ok_line_witness :
  snd (validate_xml Demo.world "proj/a.xml" None) = Ret true /\
  fst (validate_xml Demo.world "proj/remote.xml" None)
  = [PStr (COLOR_OK ++ "[OK] proj/remote.xml is valid." ++ COLOR_RESET)].
Proof.
  split.
  - apply (proj2 (validate_xml_true_iff_ok_line Demo.world "proj/a.xml" None)).
    reflexivity.
  - apply (proj1 (validate_xml_true_iff_ok_line Demo.world "proj/remote.xml" None)).
    reflexivity.
Defined.

Lemma validate_xml_verdict_sound_witness :
  (exists t s log,
     etree_parse Demo.world "proj/a.xml" = Ret t /\
     schema_validate Demo.world s t = Ret (true, log)) /\
  (exists t s,
     etree_parse Demo.world "proj/bad.xml" = Ret t /\
     schema_validate Demo.world s t
     = Ret (false, [mk_entry 1 0 "Missing child element(s). Expected is ( name )."])).
Proof.
  split.
  - apply (proj1 (validate_xml_verdict_sound Demo.world "proj/a.xml" None)).
    reflexivity.
  - apply (proj2 (validate_xml_verdict_sound Demo.world "proj/bad.xml" None)
             [mk_entry 1 0 "Missing child element(s). Expected is ( name )."]).
    right. left. reflexivity.
Defined.




Lemma local_location_needs_no_network_witness :
  validate_xml Demo.unplugged "proj/a.xml" None
  = validate_xml Demo.world "proj/a.xml" None.
Proof.
  apply (local_location_needs_no_network Demo.world "proj/a.xml" None
           (Demo.mk_doc [(Demo.key, "a.xsd")] ["name"]) "a.xsd" Demo.unplugged);
    try reflexivity.
  - discriminate.
  - split; reflexivity.
Defined.


Lemma walked_document_schema_path_witness :
  OsPath.dirname (OsPath.join "proj" "a.xml") = "proj" /\
  validate_xml Demo.world (OsPath.join "proj" "a.xml") None
  = validate_against_local_xsd Demo.world (OsPath.join "proj" "a.xml")
      (OsPath.join "proj" "a.xsd").
Proof.
  apply (walked_document_schema_path Demo.world "proj" "a.xml" None
           (Demo.mk_doc [(Demo.key, "a.xsd")] ["name"]) "a.xsd");
    try reflexivity; discriminate.
Defined.

(** ** The program on a standard output that may refuse a text *)

(** *** Loops and handlers *)

Lemma for_each_ext {A} (xs : list A) (f g : A -> M unit) :
  (forall x, f x = g x) -> for_each xs f = for_each xs g.
Proof.
  intros H. induction xs as [|x xs IH]; [reflexivity|].
  cbn [for_each]. rewrite H, IH. reflexivity.
Qed.

Lemma try_except_handler_ext {A} (m : M A) (c : exn_class) (h h' : exn -> M A) :
  (forall e, h e = h' e) -> try_except m [(c, h)] = try_except m [(c, h')].
Proof.
  intros H. destruct m as [o [a|e]]; [reflexivity|].
  unfold try_except, find_handler.
  destruct (issubclass (exn_cls e) c); [rewrite H|]; reflexivity.
Qed.



(** *** A standard output that accepts every text *)

Section Accepting.

Context {ElementTree XMLSchema : Type}.
Variable w : World ElementTree XMLSchema.
Variable write : printed -> result unit.
Hypothesis accepted : Stdout.accepts_all write.

Lemma stdout_print (s : string) : Stdout.print write s = print s.
Proof. unfold Stdout.print, Stdout.print_item. rewrite accepted. reflexivity. Qed.

Lemma stdout_print_log (l : error_log) : Stdout.print_log write l = print_log l.
Proof. unfold Stdout.print_log, Stdout.print_item. rewrite accepted. reflexivity. Qed.

Lemma stdout_fetch_xsd (url : string) :
  Stdout.fetch_xsd w write url = fetch_xsd w url.
Proof.
  unfold Stdout.fetch_xsd, fetch_xsd.
  match goal with |- try_except ?m _ = _ => destruct m as [o [a|e]] end;
    [reflexivity|].
  unfold try_except, Stdout.fetch_xsd_except, fetch_xsd_except, find_handler.
  destruct (issubclass (exn_cls e) RequestException);
    [rewrite stdout_print; reflexivity|].
  destruct (issubclass (exn_cls e) XMLSyntaxError);
    [rewrite stdout_print; reflexivity|reflexivity].
Qed.

Lemma stdout_validate_with_schema t s path :
  Stdout.validate_with_schema w write t s path = validate_with_schema w t s path.
Proof.
  unfold Stdout.validate_with_schema, validate_with_schema.
  apply bind_ext. intros v. destruct (fst v); rewrite stdout_print; [reflexivity|].
  apply bind_ext. intros _. rewrite stdout_print_log. reflexivity.
Qed.

Lemma stdout_validate_local t xsd_path path :
  Stdout.validate_local w write t xsd_path path = validate_local w t xsd_path path.
Proof.
  unfold Stdout.validate_local, validate_local.
  destruct (negb (os_path_exists w xsd_path)); [rewrite stdout_print; reflexivity|].
  apply bind_ext. intros xt. apply bind_ext. intros s.
  apply stdout_validate_with_schema.
Qed.

Lemma stdout_schema_from_document t path :
  Stdout.schema_from_document w write t path = schema_from_document w t path.
Proof.
  unfold Stdout.schema_from_document, schema_from_document. cbv zeta.
  destruct (attrib_get _ _) as [loc|]; [|rewrite stdout_print; reflexivity].
  destruct (negb (PyStr.truthy loc)); [rewrite stdout_print; reflexivity|].
  destruct (PyStr.startswith_any loc _); [|reflexivity].
  rewrite stdout_fetch_xsd. apply bind_ext. intros [s|]; [|reflexivity].
  rewrite stdout_validate_with_schema. reflexivity.
Qed.

Lemma stdout_validate_xml_body path o :
  Stdout.validate_xml_body w write path o = validate_xml_body w path o.
Proof.
  unfold Stdout.validate_xml_body, validate_xml_body.
  apply bind_ext. intros t.
  replace (match o with
           | Some o0 =>
               if PyStr.truthy o0 then ret (inr o0)
               else Stdout.schema_from_document w write t path
           | None => Stdout.schema_from_document w write t path
           end)
    with (match o with
          | Some o0 =>
              if PyStr.truthy o0 then ret (inr o0)
              else schema_from_document w t path
          | None => schema_from_document w t path
          end)
    by (rewrite stdout_schema_from_document; reflexivity).
  apply bind_ext. intros [b|xsd_path]; [reflexivity|].
  apply stdout_validate_local.
Qed.

Lemma stdout_validate_xml path o :
  Stdout.validate_xml w write path o = validate_xml w path o.
Proof.
  unfold Stdout.validate_xml, validate_xml. rewrite stdout_validate_xml_body.
  apply try_except_handler_ext. intros e.
  unfold Stdout.failed_to_validate, failed_to_validate.
  rewrite stdout_print. reflexivity.
Qed.

Lemma stdout_validate_xmls_in_directory directory o :
  Stdout.validate_xmls_in_directory w write directory o
  = validate_xmls_in_directory w directory o.
Proof.
  unfold Stdout.validate_xmls_in_directory, validate_xmls_in_directory.
  destruct (negb (os_path_isdir w directory)); [rewrite stdout_print; reflexivity|].
  apply bind_ext. intros entries.
  destruct (filter _ entries) as [|f files]; [reflexivity|].
  apply for_each_ext. intros x. rewrite stdout_validate_xml. reflexivity.
Qed.

Lemma stdout_main args : Stdout.main w write args = main w args.
Proof.
  unfold Stdout.main, main.
  rewrite stdout_validate_xmls_in_directory, stdout_validate_xml. reflexivity.
Qed.

End Accepting.

(** *** What a refused text does *)

Section Refusals.

Context {ElementTree XMLSchema : Type}.
Variable w : World ElementTree XMLSchema.
Variable write : printed -> result unit.

Lemma failed_to_validate_accepted path e :
  write (PStr (COLOR_ERROR ++ "[ERROR] Failed to validate " ++ path ++ ": "
               ++ exn_str e ++ COLOR_RESET)) = Ret tt ->
  Stdout.failed_to_validate write path e
  = ([PStr (COLOR_ERROR ++ "[ERROR] Failed to validate " ++ path ++ ": "
            ++ exn_str e ++ COLOR_RESET)], Ret false).
Proof.
  intros H. unfold Stdout.failed_to_validate, Stdout.print, Stdout.print_item.
  rewrite H. reflexivity.
Qed.

Lemma failed_to_validate_refused path e e' :
  write (PStr (COLOR_ERROR ++ "[ERROR] Failed to validate " ++ path ++ ": "
               ++ exn_str e ++ COLOR_RESET)) = Raise e' ->
  Stdout.failed_to_validate write path e = ([], Raise e').
Proof.
  intros H. unfold Stdout.failed_to_validate, Stdout.print, Stdout.print_item.
  rewrite H. reflexivity.
Qed.

(** C8, as amended: every exception raised in the [try] of [validate_xml],
    a parse error of the document among them, is caught there; when the
    standard output accepts the error line naming the file, the line is
    printed and the result is false.  The [print] of that line is in the
    [except] clause, outside every [try]: when the standard output refuses
    the line, the exception of [print] leaves [validate_xml], and no other
    exception ever does.  On a standard output that accepts every text,
    [validate_xml] always returns. *)
Theorem validate_xml_exception_handling (path : string) (o : option string) :
  (forall out e,
     Stdout.validate_xml_body w write path o = (out, Raise e) ->
     write (PStr (COLOR_ERROR ++ "[ERROR] Failed to validate " ++ path ++ ": "
                  ++ exn_str e ++ COLOR_RESET)) = Ret tt ->
     Stdout.validate_xml w write path o
     = (out ++ [PStr (COLOR_ERROR ++ "[ERROR] Failed to validate " ++ path ++ ": "
                      ++ exn_str e ++ COLOR_RESET)], Ret false)) /\
  (forall e,
     etree_parse w path = Raise e ->
     write (PStr (COLOR_ERROR ++ "[ERROR] Failed to validate " ++ path ++ ": "
                  ++ exn_str e ++ COLOR_RESET)) = Ret tt ->
     Stdout.validate_xml w write path o
     = ([PStr (COLOR_ERROR ++ "[ERROR] Failed to validate " ++ path ++ ": "
               ++ exn_str e ++ COLOR_RESET)], Ret false)) /\
  (forall out e e',
     Stdout.validate_xml_body w write path o = (out, Raise e) ->
     write (PStr (COLOR_ERROR ++ "[ERROR] Failed to validate " ++ path ++ ": "
                  ++ exn_str e ++ COLOR_RESET)) = Raise e' ->
     Stdout.validate_xml w write path o = (out, Raise e')) /\
  (forall out e',
     Stdout.validate_xml w write path o = (out, Raise e') ->
     exists e,
       Stdout.validate_xml_body w write path o = (out, Raise e) /\
       write (PStr (COLOR_ERROR ++ "[ERROR] Failed to validate " ++ path ++ ": "
                    ++ exn_str e ++ COLOR_RESET)) = Raise e') /\
  (Stdout.accepts_all write ->
   exists out b, Stdout.validate_xml w write path o = (out, Ret b)).
Proof.
  split; [|split; [|split; [|split]]].
  - intros out e Hb Hw. unfold Stdout.validate_xml.
    rewrite Hb, try_except_Exception, (failed_to_validate_accepted _ _ Hw).
    reflexivity.
  - intros e Hp Hw. unfold Stdout.validate_xml, Stdout.validate_xml_body.
    rewrite Hp, bind_call_Raise, try_except_Exception.
    rewrite (failed_to_validate_accepted _ _ Hw). reflexivity.
  - intros out e e' Hb Hw. unfold Stdout.validate_xml.
    rewrite Hb, try_except_Exception, (failed_to_validate_refused _ _ _ Hw).
    cbn [fst snd]. rewrite app_nil_r. reflexivity.
  - intros out e' H. unfold Stdout.validate_xml in H.
    destruct (Stdout.validate_xml_body w write path o) as [out0 [b|e]];
      [discriminate|].
    exists e. rewrite try_except_Exception in H.
    destruct (write (PStr (COLOR_ERROR ++ "[ERROR] Failed to validate " ++ path
                           ++ ": " ++ exn_str e ++ COLOR_RESET))) as [[]|e0] eqn:Hw.
    + rewrite (failed_to_validate_accepted _ _ Hw) in H. discriminate.
    + rewrite (failed_to_validate_refused _ _ _ Hw) in H.
      cbn [fst snd] in H. rewrite app_nil_r in H.
      injection H as Ho He. subst. split; reflexivity.
  - intros Hall. rewrite (stdout_validate_xml w write Hall).
    destruct (validate_xml_one_status_line w path o) as [out [b [H _]]].
    eauto.
Qed.




End Refusals.

(** *** Runs on a standard output that accepts every text *)

Section Accepted.

Context {ElementTree XMLSchema : Type}.
Variable w : World ElementTree XMLSchema.
Variable write : printed -> result unit.

(** X3: on a standard output that accepts every text, every run of
    [validate_xml] returns, having printed one status line; the only thing
    ever printed after it is the error log, and then the line is the [KO]
    line of the file and the result is false. *)
Theorem validate_xml_output_on_accepting_stdout (path : string) (o : option string) :
  Stdout.accepts_all write ->
  exists out b l,
    Stdout.validate_xml w write path o = (out, Ret b) /\
    is_status_line (PStr l) = true /\
    (out = [PStr l] \/
     exists log,
       b = false /\
       l = (COLOR_ERROR ++ "[KO] " ++ path ++ " is NOT valid." ++ COLOR_RESET)%string /\
       out = [PStr l; PLog log]).
Proof.
  intros Hall. rewrite (stdout_validate_xml w write Hall).
  destruct (validate_xml_run w path o) as [[e [_ H]]|[t [out [b [_ [H He]]]]]].
  - eexists _, _, _. split; [exact H|]. split; [|left; reflexivity]. reflexivity.
  - exists out, b. destruct b; cbn in He.
    + destruct He as [Ho _]. subst out.
      eexists. split; [exact H|]. split; [|left; reflexivity]. reflexivity.
    + destruct He as [l [Hl Ho]]. exists l. split; [exact H|].
      split; [apply failure_line_is_status_line, Hl|].
      destruct Ho as [Ho|[s [log [_ [Hk Ho]]]]]; [left; exact Ho|].
      right. exists log. repeat split; assumption.
Qed.

(** X12: on a standard output that accepts every text and with a non-empty
    override, the walker validates every [.xml] entry against the schema file
    at the override's path, whatever the documents themselves name. *)
Theorem directory_walk_with_override_on_accepting_stdout
    (directory o : string) (entries : list string) :
  Stdout.accepts_all write ->
  o <> EmptyString ->
  os_path_isdir w directory = true ->
  os_listdir w directory = Ret entries ->
  Stdout.validate_xmls_in_directory w write directory (Some o)
  = (flat_map
       (fun f => fst (validate_against_local_xsd w (OsPath.join directory f) o))
       (filter (fun f => PyStr.endswith f ".xml") entries),
     Ret tt).
Proof.
  intros Hall Ho Hd Hl. apply truthy_nonempty in Ho.
  rewrite (stdout_validate_xmls_in_directory w write Hall).
  rewrite (validate_xmls_in_directory_listed w directory (Some o) entries Hd Hl).
  f_equal. apply flat_map_ext. intros f.
  rewrite (validate_xml_with_override w _ _ Ho). reflexivity.
Qed.

(** X13: on a standard output that accepts every text, [main] prints one
    status line for each file it validates: one when [xml_path] is not a
    directory, and as many as there are names ending in [.xml] when it is a
    directory that can be listed. *)
Theorem main_status_lines_on_accepting_stdout (args : Args) :
  Stdout.accepts_all write ->
  (os_path_isdir w (xml_path args) = false ->
     status_lines (fst (Stdout.main w write args)) = 1) /\
  (forall entries,
     os_path_isdir w (xml_path args) = true ->
     os_listdir w (xml_path args) = Ret entries ->
     status_lines (fst (Stdout.main w write args))
     = length (filter (fun f => PyStr.endswith f ".xml") entries)).
Proof.
  intros Hall. rewrite (stdout_main w write Hall). split.
  - intros Hd. unfold main. rewrite Hd.
    destruct (validate_xml_one_status_line w (xml_path args) (xsd args))
      as [out [b [H Hs]]].
    rewrite H. cbn. rewrite app_nil_r. exact Hs.
  - intros entries Hd Hl. unfold main. rewrite Hd.
    rewrite (validate_xmls_in_directory_listed w _ _ entries Hd Hl).
    cbn [fst]. apply status_lines_per_file.
Qed.

End Accepted.

(** *** On the concrete worlds *)

Lemma accepting_accepts_all : Stdout.accepts_all Demo.accepting.
Proof. intros p. reflexivity. Qed.

(** The two embeddings give the same runs of the scenario. *)
Example scenario_on_accepting_stdout :
  Stdout.main Demo.world Demo.accepting (mk_args "proj" None)
  = main Demo.world (mk_args "proj" None).
Proof. reflexivity. Qed.

(** C8, as stated, fails: the standard output is ASCII and the path is
    not; the error line of the [except] clause is refused and the
    [UnicodeEncodeError] leaves [validate_xml], for a document that exists
    and for one that does not. *)
Lemma validate_xml_raises_on_refused_line :
  Stdout.validate_xml Demo.intl Demo.ascii_stdout ("intl/" ++ Demo.cafe) None
  = ([], Raise (mk_exn UnicodeEncodeError
                  "'ascii' codec can't encode character: ordinal not in range(128)")) /\
  etree_parse Demo.intl ("none/" ++ Demo.cafe)
  = Raise (mk_exn OSError ("Error reading file '" ++ "none/" ++ Demo.cafe ++ "'")) /\
  Stdout.validate_xml Demo.intl Demo.ascii_stdout ("none/" ++ Demo.cafe) None
  = ([], Raise (mk_exn UnicodeEncodeError
                  "'ascii' codec can't encode character: ordinal not in range(128)")).
Proof. repeat split; reflexivity. Qed.

Lemma validate_xml_exception_handling_witness :
  Stdout.validate_xml Demo.intl Demo.ascii_stdout "intl/missing.xml" None
  = ([PStr (COLOR_ERROR
            ++ "[ERROR] Failed to validate intl/missing.xml: Error reading file 'intl/missing.xml'"
            ++ COLOR_RESET)], Ret false) /\
  Stdout.validate_xml Demo.intl Demo.ascii_stdout ("intl/" ++ Demo.cafe) None
  = ([], Raise (mk_exn UnicodeEncodeError
                  "'ascii' codec can't encode character: ordinal not in range(128)")) /\
  (exists e,
     Stdout.validate_xml_body Demo.intl Demo.ascii_stdout ("intl/" ++ Demo.cafe) None
     = ([], Raise e)) /\
  exists out b,
    Stdout.validate_xml Demo.intl Demo.accepting ("intl/" ++ Demo.cafe) None
    = (out, Ret b).
Proof.
  split; [|split; [|split]].
  - apply (proj1 (proj2 (validate_xml_exception_handling Demo.intl Demo.ascii_stdout
                           "intl/missing.xml" None))
             (mk_exn OSError "Error reading file 'intl/missing.xml'"));
      reflexivity.
  - apply (proj1 (proj2 (proj2 (validate_xml_exception_handling Demo.intl
                                  Demo.ascii_stdout ("intl/" ++ Demo.cafe) None)))
             []
             (mk_exn UnicodeEncodeError
                "'ascii' codec can't encode character: ordinal not in range(128)"));
      reflexivity.
  - destruct (proj1 (proj2 (proj2 (proj2
                (validate_xml_exception_handling Demo.intl Demo.ascii_stdout
                   ("intl/" ++ Demo.cafe) None))))
                [] _ eq_refl) as [e [H _]].
    exists e. exact H.
  - apply (proj2 (proj2 (proj2 (proj2
             (validate_xml_exception_handling Demo.intl Demo.accepting
                ("intl/" ++ Demo.cafe) None))))).
    exact accepting_accepts_all.
Defined.





Lemma directory_walk_with_override_on_accepting_stdout_witness :
  Stdout.validate_xmls_in_directory Demo.world Demo.accepting "proj" (Some "other.xsd")
  = (flat_map
       (fun f => fst (validate_against_local_xsd Demo.world (OsPath.join "proj" f)
                        "other.xsd"))
       ["bad.xml"; "a.xml"; "skip.xml"; "broken.xml"],
     Ret tt).
Proof.
  apply (directory_walk_with_override_on_accepting_stdout Demo.world Demo.accepting
           "proj" "other.xsd"
           ["bad.xml"; "a.xsd"; "a.xml"; "notes.txt"; "skip.xml"; "broken.xml"]);
    try reflexivity.
  - exact accepting_accepts_all.
  - discriminate.
Defined.

Lemma validate_xml_output_on_accepting_stdout_witness :
  exists out b l,
    Stdout.validate_xml Demo.intl Demo.accepting ("intl/" ++ Demo.cafe) None
    = (out, Ret b) /\
    is_status_line (PStr l) = true /\
    (out = [PStr l] \/
     exists log,
       b = false /\
       l = (COLOR_ERROR ++ "[KO] " ++ ("intl/" ++ Demo.cafe) ++ " is NOT valid."
            ++ COLOR_RESET)%string /\
       out = [PStr l; PLog log]).
Proof.
  apply (validate_xml_output_on_accepting_stdout Demo.intl Demo.accepting
           ("intl/" ++ Demo.cafe) None).
  exact accepting_accepts_all.
Defined.

Lemma main_status_lines_on_accepting_stdout_witness :
  status_lines (fst (Stdout.main Demo.world Demo.accepting (mk_args "proj/bad.xml" None)))
  = 1 /\
  status_lines (fst (Stdout.main Demo.intl Demo.accepting (mk_args "intl" None))) = 3.
Proof.
  split.
  - apply (proj1 (main_status_lines_on_accepting_stdout Demo.world Demo.accepting
                    (mk_args "proj/bad.xml" None) accepting_accepts_all)).
    reflexivity.
  - apply (proj2 (main_status_lines_on_accepting_stdout Demo.intl Demo.accepting
                    (mk_args "intl" None) accepting_accepts_all)
             ["bad.xml"; Demo.cafe; "a.xml"; "a.xsd"]);
      reflexivity.
Defined.
